(** * Pulse sequences for the Wieserlabs DDS

    A shallow embedding of [wieserlabsdds/pulse.py]: the [Pulse] value
    classes, the [PulseSequence] builder with its [generate] and [run]
    methods, and the [QubitPulseSequence] rotation builder.

    Python floats are IEEE 754 binary64 numbers and are modelled by the
    primitive floats of the kernel; Python integers used as identifiers
    ([slot], [channel], [trigger_option]) are modelled by [Z].  The device
    client [self.dds] is a recorder of the calls made on it, in order, and
    [print] appends to a list of printed strings. *)

From Stdlib Require Import Floats ZArith List String Bool Lia.
Import ListNotations.

#[local] Set Warnings "-inexact-float".

(** ** A small Python run time *)

(** The exceptions the modelled code can raise by itself. *)
Inductive PyExc : Type :=
| AttributeError (name : string)
| IndexError.

(** How a call ends: it returns a value or it raises. *)
Inductive Outcome (A : Type) : Type :=
| Returned (a : A)
| Raised (e : PyExc).

Arguments Returned {A} a.
Arguments Raised {A} e.

(** Statements run on a state [S]; a raised exception keeps the state
    reached so far, as mutations in Python are not rolled back. *)
Definition PyM (S A : Type) : Type := S -> Outcome A * S.

Definition ret {S A : Type} (a : A) : PyM S A := fun s => (Returned a, s).

Definition raise {S A : Type} (e : PyExc) : PyM S A := fun s => (Raised e, s).

Definition bind {S A B : Type} (m : PyM S A) (k : A -> PyM S B) : PyM S B :=
  fun s =>
    match m s with
    | (Returned a, s') => k a s'
    | (Raised e, s') => (Raised e, s')
    end.

Declare Scope py_scope.
Delimit Scope py_scope with py.
Notation "x <- m ;; k" := (bind m (fun x => k))
  (at level 61, m at next level, right associativity) : py_scope.
Notation "m ;; k" := (bind m (fun _ => k))
  (at level 61, right associativity) : py_scope.

(** [for x in xs: body], where the loop variable bound by the body of the
    last iteration stays visible after the loop ([last] is its value before
    the loop). *)
Fixpoint for_in {S A B : Type} (xs : list A) (body : A -> PyM S B) (last : B)
  : PyM S B :=
  match xs with
  | [] => ret last
  | x :: xs' => bind (body x) (fun b => for_in xs' body b)
  end.

(** [range(n)]. *)
Definition range (n : nat) : list Z := map Z.of_nat (seq 0 n).

(** [l[i]] on a list: a negative index counts from the end; [None] stands
    for the IndexError of an index out of range. *)
Definition py_getitem {A : Type} (l : list A) (i : Z) : option A :=
  let n := Z.of_nat (List.length l) in
  if (0 <=? i)%Z then nth_error l (Z.to_nat i)
  else if (- n <=? i)%Z then nth_error l (Z.to_nat (n + i))
  else None.

(** [numpy.pi], the binary64 number closest to the circle constant. *)
Definition pi : float := 0x1.921fb54442d18p+1%float.

(** ** The device client *)

Module wieserlabsdds.

(** Modelled from the spec: the enumeration [TriggerEvent] is declared in
    [wieserlabsdds.py], which is not part of the sources at hand; the spec
    calls trigger identifiers opaque tokens of the device's enumeration, so
    a member is modelled by its name. *)
Inductive TriggerEvent : Type :=
| TriggerEvent_member (name : string).

Definition BNC_IN_A_RISING : TriggerEvent :=
  TriggerEvent_member "BNC_IN_A_RISING".

(** Modelled from the spec: the class [WieserlabsClient] is declared in
    [wieserlabsdds.py], which is not part of the sources at hand; the spec
    treats it as an external collaborator that accepts the emitted
    operations.  A call is recorded with the arguments [pulse.py] passes, in
    the order and under the keywords it passes them. *)
Inductive Call : Type :=
| single_tone (slot channel : Z) (freq amp phase : float)
    (suffix : option string)
| push_update (slot channel : Z)
| wait_trigger (slot channel : Z) (trigger : list TriggerEvent)
    (update_before_wait : bool)
| wait_time (t : float) (update_before_wait : bool)
| run (slot : Z).

End wieserlabsdds.

(** ** Pulses *)

(** The class of a pulse object; the subclasses only change [__str__]. *)
Inductive PulseClass : Type :=
| class_Pulse
| class_XPulse
| class_YPulse.

Record Pulse : Type := mkPulse {
  cls : PulseClass;
  freq : float;
  amp : float;
  phase : float;
  t : float
}.

(** [Pulse(freq, amp, phase, t)]. *)
Definition Pulse_init (freq amp phase t : float) : Pulse :=
  mkPulse class_Pulse freq amp phase t.

(** [XPulse(freq, amp, t)]: the phase is the integer [0]. *)
Definition XPulse_init (freq amp t : float) : Pulse :=
  mkPulse class_XPulse freq amp 0%float t.

(** [YPulse(freq, amp, t)]: the phase is the integer [90]. *)
Definition YPulse_init (freq amp t : float) : Pulse :=
  mkPulse class_YPulse freq amp 90%float t.

(** ** PulseSequence *)

Module PulseSequence.

Import wieserlabsdds.
Local Open Scope py_scope.

(** The attributes of a sequence object.  [__init__] assigns every attribute
    but [channel]; reading an attribute that was never assigned raises
    AttributeError, so [channel] is the one optional field ([Some c] once a
    caller has assigned [seq.channel = c]). *)
Record obj : Type := mk {
  slot : Z;
  channel : option Z;
  default_freq : float;
  default_amp : float;
  pulses : list Pulse;
  generated : bool
}.

(** [PulseSequence(dds, slot, channel, default_freq, default_amp)]:
    [self.slot = slot] is followed by [self.slot = channel]. *)
Definition __init__ (slot channel : Z) (default_freq default_amp : float)
  : obj :=
  let self_slot := slot in
  let self_slot := channel in
  {| slot := self_slot;
     channel := None;
     default_freq := default_freq;
     default_amp := default_amp;
     pulses := [];
     generated := false |}.

(** The caller's assignment [seq.channel = c]. *)
Definition set_channel (c : Z) (self : obj) : obj :=
  {| slot := slot self;
     channel := Some c;
     default_freq := default_freq self;
     default_amp := default_amp self;
     pulses := pulses self;
     generated := generated self |}.

(** [self.pulses.append(p)]. *)
Definition pulses_append (p : Pulse) (self : obj) : obj :=
  {| slot := slot self;
     channel := channel self;
     default_freq := default_freq self;
     default_amp := default_amp self;
     pulses := pulses self ++ [p];
     generated := generated self |}.

(** [add_pulse(t, freq=None, amp=None, phase=0)]. *)
Definition add_pulse (t : float) (freq amp : option float) (phase : float)
  (self : obj) : obj :=
  let freq := match freq with None => default_freq self | Some f => f end in
  let amp := match amp with None => default_amp self | Some a => a end in
  pulses_append (Pulse_init freq amp phase t) self.

(** What [generate] and [run] act on: the sequence object, the calls
    recorded by [self.dds], oldest first, and the strings printed. *)
Record World : Type := mkWorld {
  self : obj;
  dds : list Call;
  stdout : list string
}.

Definition M (A : Type) : Type := PyM World A.

Definition WARNING_GENERATED : string :=
  "WARNING!! If you call the generate method multiple times, you will execute the pulse sequence twice!
This will most likely lead to unexpected behaviour!".

Definition WARNING_NO_PULSES : string :=
  "WARNING: you called the generate function without having provided any pulses.
Nothing will be sent to the DDS.".

Definition print (s : string) : M unit :=
  fun w => (Returned tt, mkWorld (self w) (dds w) (stdout w ++ [s])).

(** A method call on [self.dds]. *)
Definition dds_call (c : Call) : M unit :=
  fun w => (Returned tt, mkWorld (self w) (dds w ++ [c]) (stdout w)).

Definition self_slot : M Z := fun w => (Returned (slot (self w)), w).

Definition self_channel : M Z :=
  fun w =>
    match channel (self w) with
    | Some c => (Returned c, w)
    | None => (Raised (AttributeError "channel"), w)
    end.

Definition self_pulses : M (list Pulse) :=
  fun w => (Returned (pulses (self w)), w).

Definition self_generated : M bool :=
  fun w => (Returned (generated (self w)), w).

(** [self.generated = b]. *)
Definition set_generated (b : bool) : M unit :=
  fun w =>
    (Returned tt,
     mkWorld {| slot := slot (self w);
                channel := channel (self w);
                default_freq := default_freq (self w);
                default_amp := default_amp (self w);
                pulses := pulses (self w);
                generated := b |}
             (dds w) (stdout w)).

(** [self.pulses[i]]. *)
Definition self_pulses_getitem (i : Z) : M Pulse :=
  ps <- self_pulses ;;
  match py_getitem ps i with
  | Some p => ret p
  | None => raise IndexError
  end.

(** The body of the loop of [generate] at index [i]; it returns the value
    it gives the variable [p]. *)
Definition generate_loop_body (i : Z) : M Pulse :=
  p <- self_pulses_getitem i ;;
  s <- self_slot ;;
  c <- self_channel ;;
  dds_call (single_tone s c (freq p) (amp p) (phase p) (Some "c"%string)) ;;
  q <- self_pulses_getitem (i - 1) ;;
  dds_call (wait_time (t q) false) ;;
  s <- self_slot ;;
  c <- self_channel ;;
  dds_call (push_update s c) ;;
  ret p.

(** [generate(trigger_option, trigger)]; the defaults are
    [trigger_option=1] and [trigger=[TriggerEvent.BNC_IN_A_RISING]]. *)
Definition generate (trigger_option : Z) (trigger : list TriggerEvent)
  : M unit :=
  g <- self_generated ;;
  (if g then print WARNING_GENERATED else ret tt) ;;
  ps <- self_pulses ;;
  if (Z.of_nat (List.length ps) =? 0)%Z then
    print WARNING_NO_PULSES
  else
    p <- self_pulses_getitem 0 ;;
    s <- self_slot ;;
    c <- self_channel ;;
    dds_call (single_tone s c (freq p) (amp p) (phase p)
                (if (trigger_option =? 0)%Z then None else Some "c"%string)) ;;
    (if (trigger_option =? 0)%Z then
       s <- self_slot ;;
       c <- self_channel ;;
       dds_call (push_update s c)
     else
       s <- self_slot ;;
       c <- self_channel ;;
       dds_call (wait_trigger s c trigger false) ;;
       s <- self_slot ;;
       c <- self_channel ;;
       dds_call (push_update s c)) ;;
    ps <- self_pulses ;;
    p <- for_in (range (List.length ps)) generate_loop_body p ;;
    s <- self_slot ;;
    c <- self_channel ;;
    dds_call (single_tone s c (freq p) 0%float (phase p) (Some "c"%string)) ;;
    q <- self_pulses_getitem (-1) ;;
    dds_call (wait_time (t q) false) ;;
    s <- self_slot ;;
    c <- self_channel ;;
    dds_call (push_update s c) ;;
    set_generated true.

(** [run()]: [generate] is called with its default arguments. *)
Definition run : M unit :=
  g <- self_generated ;;
  (if negb g then generate 1 [BNC_IN_A_RISING] else ret tt) ;;
  s <- self_slot ;;
  dds_call (wieserlabsdds.run s).

(** The methods of the class, as a caller invokes them on a sequence. *)
Inductive Method : Type :=
| call_add_pulse (t : float) (freq amp : option float) (phase : float)
| call_generate (trigger_option : Z) (trigger : list TriggerEvent)
| call_run.

Definition call (m : Method) : M unit :=
  match m with
  | call_add_pulse t freq amp phase =>
      fun w =>
        (Returned tt,
         mkWorld (add_pulse t freq amp phase (self w)) (dds w) (stdout w))
  | call_generate trigger_option trigger => generate trigger_option trigger
  | call_run => run
  end.

End PulseSequence.

(** ** QubitPulseSequence *)

Module QubitPulseSequence.

Local Open Scope float_scope.

(** A [QubitPulseSequence] is a [PulseSequence] with three more
    attributes; [generate] and [run] are inherited and act on [super]. *)
Record obj : Type := mk {
  super : PulseSequence.obj;
  freq : float;
  amp : float;
  pi_pulse_time : float
}.

(** [QubitPulseSequence(dds, slot, channel, pi_pulse_time, freq, amp)]. *)
Definition __init__ (slot channel : Z) (pi_pulse_time freq amp : float)
  : obj :=
  {| super := PulseSequence.__init__ slot channel freq amp;
     freq := freq;
     amp := amp;
     pi_pulse_time := pi_pulse_time |}.

(** [self.pulses.append(p)]. *)
Definition pulses_append (p : Pulse) (self : obj) : obj :=
  {| super := PulseSequence.pulses_append p (super self);
     freq := freq self;
     amp := amp self;
     pi_pulse_time := pi_pulse_time self |}.

Definition _angle_to_time (theta : float) (self : obj) : float :=
  theta / pi * pi_pulse_time self.

(** [add_pulse(phi, theta)], which overrides the method of the base
    class. *)
Definition add_pulse (phi theta : float) (self : obj) : obj :=
  pulses_append
    (Pulse_init (freq self) (amp self) (phi / pi * 180)
       (_angle_to_time theta self))
    self.

Definition add_x_pulse (theta : float) (self : obj) : obj :=
  pulses_append
    (XPulse_init (freq self) (amp self) (_angle_to_time theta self)) self.

Definition add_y_pulse (theta : float) (self : obj) : obj :=
  pulses_append
    (YPulse_init (freq self) (amp self) (_angle_to_time theta self)) self.

End QubitPulseSequence.

(** ** The calls [generate] makes, as a list *)

Import wieserlabsdds.
Import PulseSequence.

Section Emitted.

(** The sequence object and the value of its attribute [channel]. *)
Variables (o : obj) (c : Z).

(** [single_tone] for the parameters of [p]. *)
Definition stage (p : Pulse) (suffix : option string) : Call :=
  single_tone (slot o) c (freq p) (amp p) (phase p) suffix.

(** [single_tone] for [p] with the amplitude forced to [0]. *)
Definition stage_off (p : Pulse) : Call :=
  single_tone (slot o) c (freq p) 0%float (phase p) (Some "c"%string).

Definition commit : Call := push_update (slot o) c.

(** [wait_time] for the duration of [q]. *)
Definition wait (q : Pulse) : Call := wait_time (t q) false.

(** The calls before the loop, for the first pulse [p]. *)
Definition prime_calls (p : Pulse) (trigger_option : Z)
  (trigger : list TriggerEvent) : list Call :=
  if (trigger_option =? 0)%Z then [stage p None; commit]
  else [stage p (Some "c"%string);
        wait_trigger (slot o) c trigger false;
        commit].

(** The pulse whose duration the loop waits for at index [k], when [d] is
    any pulse of the list: the one before, and at index 0 the last one, as
    [pulses[-1]] is. *)
Definition waited_for (d : Pulse) (k : nat) : Pulse :=
  match k with
  | O => last (pulses o) d
  | S k' => nth k' (pulses o) d
  end.

(** The calls of the loop body at index [i]. *)
Definition loop_calls_at (i : Z) : list Call :=
  match py_getitem (pulses o) i, py_getitem (pulses o) (i - 1) with
  | Some p, Some q => [stage p (Some "c"%string); wait q; commit]
  | _, _ => []
  end.

(** The value of the variable [p] after a loop over the indices [idx]. *)
Definition loop_last (idx : list Z) (p0 : Pulse) : Pulse :=
  fold_left
    (fun p i => match py_getitem (pulses o) i with Some p' => p' | None => p end)
    idx p0.

(** The calls after the loop, where [p] is the loop variable. *)
Definition shutdown_calls (p : Pulse) : list Call :=
  match py_getitem (pulses o) (-1) with
  | Some q => [stage_off p; wait q; commit]
  | None => []
  end.

(** All the calls of one [generate]. *)
Definition emitted (trigger_option : Z) (trigger : list TriggerEvent)
  : list Call :=
  match pulses o with
  | [] => []
  | p0 :: _ =>
      let idx := range (List.length (pulses o)) in
      prime_calls p0 trigger_option trigger
        ++ flat_map loop_calls_at idx
        ++ shutdown_calls (loop_last idx p0)
  end.

End Emitted.

(** Kinds of device calls, to count them. *)
Definition is_stage (k : Call) : bool :=
  match k with single_tone _ _ _ _ _ _ => true | _ => false end.

Definition is_commit (k : Call) : bool :=
  match k with push_update _ _ => true | _ => false end.

Definition is_wait_time (k : Call) : bool :=
  match k with wait_time _ _ => true | _ => false end.

Definition is_wait_trigger (k : Call) : bool :=
  match k with wait_trigger _ _ _ _ => true | _ => false end.

Definition count (f : Call -> bool) (l : list Call) : nat :=
  List.length (filter f l).

(** The slot and channel arguments a recorded call carries, if any. *)
Definition addressed (k : Call) : option (Z * option Z) :=
  match k with
  | single_tone s ch _ _ _ _ => Some (s, Some ch)
  | push_update s ch => Some (s, Some ch)
  | wait_trigger s ch _ _ => Some (s, Some ch)
  | wait_time _ _ => None
  | wieserlabsdds.run s => Some (s, None)
  end.

(** The sequence object with its flag [generated] set to [b]. *)
Definition with_generated (b : bool) (o : obj) : obj :=
  {| slot := slot o;
     channel := channel o;
     default_freq := default_freq o;
     default_amp := default_amp o;
     pulses := pulses o;
     generated := b |}.

(** The attributes [generate] must not change. *)
Definition same_configuration (o o' : obj) : Prop :=
  slot o' = slot o /\ channel o' = channel o
  /\ default_freq o' = default_freq o /\ default_amp o' = default_amp o
  /\ pulses o' = pulses o.

(** The printed strings after the first test of [generate]. *)
Definition warned (w : World) : list string :=
  stdout w ++ (if generated (self w) then [WARNING_GENERATED] else []).

(** A fresh process: nothing sent to the device, nothing printed. *)
Definition fresh (o : obj) : World := mkWorld o [] [].

(** The sequences a caller can build: construction, the assignment of
    the attribute [channel], and calls of the methods. *)
Inductive reachable : World -> Prop :=
| reachable_init (slot channel : Z) (default_freq default_amp : float) :
    reachable (fresh (__init__ slot channel default_freq default_amp))
| reachable_set_channel (w : World) (c : Z) :
    reachable w ->
    reachable (mkWorld (set_channel c (self w)) (dds w) (stdout w))
| reachable_call (w : World) (m : Method) :
    reachable w -> reachable (snd (call m w)).

(** ** Examples *)

(** The two pulses of the worked example, added to a sequence constructed
    for slot 1 and channel 2. *)
Definition example_sequence : obj :=
  add_pulse 2e-6%float (Some 2e6%float) (Some 0.5%float) 90%float
    (add_pulse 1e-6%float (Some 1e6%float) (Some 1%float) 0%float
       (__init__ 1 2 1e6%float 1%float)).

(** ** Further notions *)

(** Calls of [run] on the device client. *)
Definition is_run (k : Call) : bool :=
  match k with wieserlabsdds.run _ => true | _ => false end.

(** The arguments of one call [add_pulse(t, freq, amp, phase)], where
    [None] stands for an argument left at its default [None]. *)
Record add_pulse_args : Type := mk_args {
  arg_t : float;
  arg_freq : option float;
  arg_amp : option float;
  arg_phase : float
}.

(** Calls of [add_pulse] one after the other. *)
Definition add_pulses (args : list add_pulse_args) (o : obj) : obj :=
  fold_left
    (fun o a => add_pulse (arg_t a) (arg_freq a) (arg_amp a) (arg_phase a) o)
    args o.

(** A call of one of the three adders of the rotation builder. *)
Inductive rotation : Type :=
| rot (phi theta : float)
| rot_x (theta : float)
| rot_y (theta : float).

Definition add_rotation (q : QubitPulseSequence.obj) (r : rotation)
  : QubitPulseSequence.obj :=
  match r with
  | rot phi theta => QubitPulseSequence.add_pulse phi theta q
  | rot_x theta => QubitPulseSequence.add_x_pulse theta q
  | rot_y theta => QubitPulseSequence.add_y_pulse theta q
  end.

(** Calls of the adders of the rotation builder one after the other. *)
Definition add_rotations (rs : list rotation) (q : QubitPulseSequence.obj)
  : QubitPulseSequence.obj :=
  fold_left add_rotation rs q.

(** The sequences built through the classes alone: construction, appended
    pulses (what every adder of both classes does), [generate] and [run]. *)
Inductive built_by_methods : World -> Prop :=
| built_init (slot channel : Z) (default_freq default_amp : float) :
    built_by_methods (fresh (__init__ slot channel default_freq default_amp))
| built_append (w : World) (p : Pulse) :
    built_by_methods w ->
    built_by_methods (mkWorld (pulses_append p (self w)) (dds w) (stdout w))
| built_generate (w : World) (trigger_option : Z)
    (trigger : list TriggerEvent) :
    built_by_methods w ->
    built_by_methods (snd (generate trigger_option trigger w))
| built_run (w : World) :
    built_by_methods w -> built_by_methods (snd (run w)).

Section Str.

(** [str(p)] for a pulse object, which formats floating-point numbers and
    is left open here. *)
Variable Pulse_str : Pulse -> string.


End Str.

(** * Properties *)

(** ** Indexing *)

Lemma py_getitem_nonneg {A : Type} (l : list A) (i : Z) :
  (0 <= i)%Z -> py_getitem l i = nth_error l (Z.to_nat i).
Proof.
  intros Hi. unfold py_getitem.
  destruct (Z.leb_spec 0 i); [reflexivity | lia].
Qed.

Lemma py_getitem_of_nat {A : Type} (l : list A) (k : nat) :
  py_getitem l (Z.of_nat k) = nth_error l k.
Proof.
  rewrite py_getitem_nonneg by lia. now rewrite Nat2Z.id.
Qed.

Lemma py_getitem_minus_one {A : Type} (l : list A) (d : A) :
  l <> [] -> py_getitem l (-1) = Some (last l d).
Proof.
  intros Hl. unfold py_getitem.
  change (0 <=? -1)%Z with false. cbv iota.
  destruct (Z.leb_spec (- Z.of_nat (List.length l)) (-1)) as [E'|E'].
  - destruct (exists_last Hl) as [l' [a ->]].
    rewrite last_last, length_app. simpl.
    replace (Z.to_nat (Z.of_nat (List.length l' + 1) + -1)) with (List.length l')
      by lia.
    rewrite nth_error_app2 by lia. now rewrite Nat.sub_diag.
  - destruct l; [contradiction | simpl in E'; lia].
Qed.

Lemma py_getitem_pred {A : Type} (l : list A) (k : nat) (d : A) :
  (k < List.length l)%nat ->
  py_getitem l (Z.of_nat k - 1) =
  Some (match k with O => last l d | S k' => nth k' l d end).
Proof.
  intros Hk. destruct k as [|k'].
  - apply py_getitem_minus_one. destruct l; [simpl in Hk; lia | discriminate].
  - replace (Z.of_nat (S k') - 1)%Z with (Z.of_nat k') by lia.
    rewrite py_getitem_of_nat. apply nth_error_nth'. lia.
Qed.

Lemma py_getitem_nth {A : Type} (l : list A) (k : nat) (d : A) :
  (k < List.length l)%nat -> py_getitem l (Z.of_nat k) = Some (nth k l d).
Proof.
  intros Hk. rewrite py_getitem_of_nat. now apply nth_error_nth'.
Qed.

Lemma range_S (n : nat) : range (S n) = range n ++ [Z.of_nat n].
Proof.
  unfold range. now rewrite seq_S, map_app.
Qed.

Lemma in_range (n : nat) (i : Z) :
  In i (range n) -> exists k, i = Z.of_nat k /\ (k < n)%nat.
Proof.
  unfold range. rewrite in_map_iff. intros [k [<- Hk]].
  apply in_seq in Hk. exists k. split; [reflexivity | lia].
Qed.

(** ** Running the monad *)

Lemma bind_returned {S A B : Type} (m : PyM S A) (k : A -> PyM S B)
  (s s' : S) (a : A) :
  m s = (Returned a, s') -> bind m k s = k a s'.
Proof.
  intros H. unfold bind. now rewrite H.
Qed.

Lemma bind_raised {S A B : Type} (m : PyM S A) (k : A -> PyM S B)
  (s s' : S) (e : PyExc) :
  m s = (Raised e, s') -> bind m k s = (Raised e, s').
Proof.
  intros H. unfold bind. now rewrite H.
Qed.

Lemma self_pulses_getitem_some (w : World) (i : Z) (p : Pulse) :
  py_getitem (pulses (self w)) i = Some p ->
  self_pulses_getitem i w = (Returned p, w).
Proof.
  intros H. unfold self_pulses_getitem, bind, self_pulses. now rewrite H.
Qed.

Lemma self_channel_some (w : World) (c : Z) :
  channel (self w) = Some c -> self_channel w = (Returned c, w).
Proof.
  intros H. unfold self_channel. now rewrite H.
Qed.

Lemma self_channel_none (w : World) :
  channel (self w) = None ->
  self_channel w = (Raised (AttributeError "channel"), w).
Proof.
  intros H. unfold self_channel. now rewrite H.
Qed.

(** One iteration of the loop, on an object that has a channel. *)
Lemma generate_loop_body_returns (w : World) (c i : Z) (p q : Pulse) :
  channel (self w) = Some c ->
  py_getitem (pulses (self w)) i = Some p ->
  py_getitem (pulses (self w)) (i - 1) = Some q ->
  generate_loop_body i w =
  (Returned p,
   mkWorld (self w)
     (dds w ++ [stage (self w) c p (Some "c"%string); wait q;
                commit (self w) c])
     (stdout w)).
Proof.
  intros Hc Hp Hq.
  destruct w as [[sl ch df da ps g] calls out]. simpl in *. subst ch.
  unfold generate_loop_body, self_pulses_getitem, self_pulses, self_slot,
    self_channel, dds_call, bind, ret, raise.
  simpl. rewrite Hp. simpl. rewrite Hq. simpl.
  now rewrite <- !app_assoc.
Qed.

(** The loop over indices of the pulse list. *)
Lemma for_in_generate_loop_body (c : Z) (idx : list Z) :
  forall (p0 : Pulse) (w : World),
    channel (self w) = Some c ->
    (forall i, In i idx ->
       exists k, i = Z.of_nat k /\ (k < List.length (pulses (self w)))%nat) ->
    for_in idx generate_loop_body p0 w =
    (Returned (loop_last (self w) idx p0),
     mkWorld (self w) (dds w ++ flat_map (loop_calls_at (self w) c) idx)
       (stdout w)).
Proof.
  induction idx as [|i idx IH]; intros p0 w Hc Hidx.
  - simpl. unfold ret. rewrite app_nil_r. now destruct w.
  - destruct (Hidx i (or_introl eq_refl)) as [k [-> Hk]].
    pose proof (py_getitem_nth (pulses (self w)) k p0 Hk) as Hp.
    pose proof (py_getitem_pred (pulses (self w)) k p0 Hk) as Hq.
    simpl for_in.
    rewrite (bind_returned _ _ _ _ _ (generate_loop_body_returns w c _ _ _ Hc Hp Hq)).
    rewrite IH; simpl; [| exact Hc | intros j Hj; apply Hidx; now right].
    unfold loop_last, loop_calls_at. simpl. rewrite Hp, Hq.
    now rewrite <- app_assoc.
Qed.

(** After a loop over [range n], the loop variable is the last pulse. *)
Lemma loop_last_range (o : obj) (p0 : Pulse) (n : nat) :
  (n <= List.length (pulses o))%nat ->
  loop_last o (range n) p0 =
  match n with O => p0 | S k => nth k (pulses o) p0 end.
Proof.
  intros Hn. destruct n as [|k]; [reflexivity |].
  rewrite range_S. unfold loop_last. rewrite fold_left_app. simpl.
  rewrite py_getitem_of_nat.
  destruct (nth_error (pulses o) k) as [p|] eqn:E.
  - symmetry. now apply nth_error_nth.
  - apply nth_error_None in E. lia.
Qed.

(** *** Stepping through a method body *)

Lemma bind_assoc {S A B C : Type} (m : PyM S A) (f : A -> PyM S B)
  (g : B -> PyM S C) (s : S) :
  bind (bind m f) g s = bind m (fun x => bind (f x) g) s.
Proof.
  unfold bind. destruct (m s) as [[a | e] s']; reflexivity.
Qed.

Lemma bind_ret {S A B : Type} (a : A) (k : A -> PyM S B) (s : S) :
  bind (ret a) k s = k a s.
Proof. reflexivity. Qed.

Section Steps.

Context {B : Type} (k : unit -> M B) (w : World).

Lemma bind_self_slot (kz : Z -> M B) :
  bind self_slot kz w = kz (slot (self w)) w.
Proof. reflexivity. Qed.

Lemma bind_self_pulses (kp : list Pulse -> M B) :
  bind self_pulses kp w = kp (pulses (self w)) w.
Proof. reflexivity. Qed.

Lemma bind_self_generated (kb : bool -> M B) :
  bind self_generated kb w = kb (generated (self w)) w.
Proof. reflexivity. Qed.

Lemma bind_dds_call (x : Call) :
  bind (dds_call x) k w = k tt (mkWorld (self w) (dds w ++ [x]) (stdout w)).
Proof. reflexivity. Qed.

Lemma bind_print (s : string) :
  bind (print s) k w = k tt (mkWorld (self w) (dds w) (stdout w ++ [s])).
Proof. reflexivity. Qed.

Lemma bind_self_channel (kz : Z -> M B) (c : Z) :
  channel (self w) = Some c -> bind self_channel kz w = kz c w.
Proof.
  intros H. apply bind_returned. now apply self_channel_some.
Qed.

Lemma bind_self_channel_none (kz : Z -> M B) :
  channel (self w) = None ->
  bind self_channel kz w = (Raised (AttributeError "channel"), w).
Proof.
  intros H. apply bind_raised. now apply self_channel_none.
Qed.

Lemma bind_self_pulses_getitem (kp : Pulse -> M B) (i : Z) (p : Pulse) :
  py_getitem (pulses (self w)) i = Some p ->
  bind (self_pulses_getitem i) kp w = kp p w.
Proof.
  intros H. apply bind_returned. now apply self_pulses_getitem_some.
Qed.

End Steps.

(** One statement of a method body whose attribute reads succeed. *)
Ltac py_step :=
  first
    [ rewrite bind_self_slot
    | rewrite bind_self_pulses
    | rewrite bind_self_generated
    | rewrite bind_dds_call
    | rewrite bind_print
    | rewrite bind_ret
    | rewrite bind_assoc
    | erewrite bind_self_channel by (cbn; eassumption)
    | erewrite bind_self_pulses_getitem by (cbn; eassumption) ];
  cbn [self dds stdout slot channel pulses generated default_freq
       default_amp].

(** [generate] on a sequence without pulses. *)
Lemma generate_no_pulses (trigger_option : Z) (trigger : list TriggerEvent)
  (w : World) :
  pulses (self w) = [] ->
  generate trigger_option trigger w =
  (Returned tt,
   mkWorld (self w) (dds w) (warned w ++ [WARNING_NO_PULSES])).
Proof.
  intros Hps. unfold generate, warned.
  rewrite bind_self_generated.
  destruct (generated (self w)); repeat py_step; rewrite Hps.
  - reflexivity.
  - unfold print. now rewrite app_nil_r.
Qed.

(** [generate] on a sequence with pulses and without the attribute
    [channel]. *)
Lemma generate_raises (trigger_option : Z) (trigger : list TriggerEvent)
  (w : World) :
  pulses (self w) <> [] ->
  channel (self w) = None ->
  generate trigger_option trigger w =
  (Raised (AttributeError "channel"),
   mkWorld (self w) (dds w) (warned w)).
Proof.
  intros Hps Hc. unfold generate, warned.
  rewrite bind_self_generated.
  destruct (pulses (self w)) as [|p0 ps] eqn:E; [contradiction |].
  assert (H0 : py_getitem (pulses (self w)) 0 = Some p0) by now rewrite E.
  destruct (generated (self w)); repeat py_step; rewrite E;
    cbn [List.length Z.of_nat Z.eqb];
    repeat py_step; rewrite bind_self_channel_none by exact Hc.
  - reflexivity.
  - rewrite app_nil_r. now destruct w.
Qed.

(** [generate] on a sequence with pulses and with the attribute
    [channel]. *)
Lemma generate_returns (trigger_option : Z) (trigger : list TriggerEvent)
  (w : World) (c : Z) :
  pulses (self w) <> [] ->
  channel (self w) = Some c ->
  generate trigger_option trigger w =
  (Returned tt,
   mkWorld (with_generated true (self w))
     (dds w ++ emitted (self w) c trigger_option trigger)
     (warned w)).
Proof.
  intros Hps Hc. unfold generate, warned, emitted.
  rewrite bind_self_generated.
  destruct (pulses (self w)) as [|p0 ps] eqn:E; [contradiction |].
  assert (H0 : py_getitem (pulses (self w)) 0 = Some p0) by now rewrite E.
  assert (Hlast : py_getitem (pulses (self w)) (-1)
                  = Some (last (pulses (self w)) p0))
    by (apply py_getitem_minus_one; now rewrite E).
  assert (Hidx : forall i, In i (range (List.length (pulses (self w)))) ->
            exists k, i = Z.of_nat k /\ (k < List.length (pulses (self w)))%nat)
    by (intros i; apply in_range).
  assert (Hn : (Z.of_nat (List.length (pulses (self w))) =? 0)%Z = false)
    by now rewrite E.
  destruct w as [o calls out]. cbn [self dds stdout] in *.
  rewrite <- E. unfold prime_calls, shutdown_calls. rewrite Hlast.
  destruct (generated o), (trigger_option =? 0)%Z;
    repeat py_step; rewrite Hn; repeat py_step.
  all: erewrite bind_returned by
      (apply (for_in_generate_loop_body c); [exact Hc | exact Hidx]).
  all: cbn [self dds stdout]; repeat py_step.
  all: unfold set_generated, with_generated, stage, stage_off, wait, commit.
  all: cbn [self dds stdout]; rewrite <- ?app_assoc, ?app_nil_r.
  all: reflexivity.
Qed.

(** ** The shape of the emitted calls *)

Lemma count_app (f : Call -> bool) (l1 l2 : list Call) :
  count f (l1 ++ l2) = (count f l1 + count f l2)%nat.
Proof.
  unfold count. now rewrite filter_app, length_app.
Qed.

Section EmittedShape.

Variables (o : obj) (c : Z).

Lemma loop_calls_at_in_range (d : Pulse) (k : nat) :
  (k < List.length (pulses o))%nat ->
  loop_calls_at o c (Z.of_nat k) =
  [stage o c (nth k (pulses o) d) (Some "c"%string);
   wait (waited_for o d k);
   commit o c].
Proof.
  intros Hk. unfold loop_calls_at, waited_for.
  now rewrite (py_getitem_nth _ k d Hk), (py_getitem_pred _ k d Hk).
Qed.

Lemma flat_map_loop_calls_at (d : Pulse) (n : nat) :
  (n <= List.length (pulses o))%nat ->
  flat_map (loop_calls_at o c) (range n) =
  flat_map
    (fun k => [stage o c (nth k (pulses o) d) (Some "c"%string);
               wait (waited_for o d k);
               commit o c])
    (seq 0 n).
Proof.
  induction n as [|n IH]; intros Hn; [reflexivity |].
  rewrite range_S, seq_S, !flat_map_app, IH by lia. simpl.
  now rewrite (loop_calls_at_in_range d) by lia.
Qed.

End EmittedShape.

Lemma count_flat_map (f : Call -> bool) (g : nat -> list Call) (a : nat)
  (l : list nat) :
  (forall k, count f (g k) = a) ->
  count f (flat_map g l) = (List.length l * a)%nat.
Proof.
  intros Hg. induction l as [|k l IH]; [reflexivity |].
  simpl. now rewrite count_app, Hg, IH.
Qed.

(** What one [generate] emits on a sequence of [n] pulses: [n + 2] calls of
    [single_tone], [n + 2] of [push_update], [n + 1] of [wait_time], and one
    [wait_trigger] unless [trigger_option] is [0]. *)
Lemma emitted_counts (o : obj) (c : Z) (trigger_option : Z)
  (trigger : list TriggerEvent) :
  pulses o <> [] ->
  let n := List.length (pulses o) in
  let ops := emitted o c trigger_option trigger in
  count is_stage ops = (n + 2)%nat
  /\ count is_commit ops = (n + 2)%nat
  /\ count is_wait_time ops = (n + 1)%nat
  /\ count is_wait_trigger ops
     = (if (trigger_option =? 0)%Z then 0 else 1)%nat.
Proof.
  intros Hps n ops. subst n ops. unfold emitted.
  destruct (pulses o) as [|p0 ps] eqn:E; [contradiction |].
  rewrite <- E.
  rewrite (flat_map_loop_calls_at o c p0 _ (Nat.le_refl _)).
  unfold shutdown_calls.
  rewrite (py_getitem_minus_one (pulses o) p0) by (now rewrite E).
  unfold prime_calls.
  rewrite !count_app.
  rewrite !(count_flat_map _ _ 1) by reflexivity.
  rewrite !(count_flat_map _ _ 0) by reflexivity.
  rewrite length_seq.
  destruct (trigger_option =? 0)%Z; cbn [count filter List.length is_stage
    is_commit is_wait_time is_wait_trigger stage stage_off commit wait];
    repeat split; lia.
Qed.

(** ** What [generate] and [run] do to the sequence object *)

(** [generate] either leaves the object as it is, or it completes on a
    sequence with pulses and sets the flag. *)
Lemma generate_self (trigger_option : Z) (trigger : list TriggerEvent)
  (w : World) :
  self (snd (generate trigger_option trigger w)) = self w
  \/ (self (snd (generate trigger_option trigger w))
      = with_generated true (self w)
      /\ pulses (self w) <> []
      /\ fst (generate trigger_option trigger w) = Returned tt).
Proof.
  destruct (pulses (self w)) as [|p0 ps] eqn:E.
  - left. now rewrite generate_no_pulses.
  - assert (Hps : pulses (self w) <> []) by now rewrite E.
    rewrite <- E. destruct (channel (self w)) as [c|] eqn:Hc.
    + right. rewrite (generate_returns _ _ _ c Hps Hc). now repeat split.
    + left. now rewrite (generate_raises _ _ _ Hps Hc).
Qed.

(** [run] on a sequence whose flag is set only starts the playback. *)
Lemma run_generated (w : World) :
  generated (self w) = true ->
  run w =
  (Returned tt,
   mkWorld (self w) (dds w ++ [wieserlabsdds.run (slot (self w))])
     (stdout w)).
Proof.
  intros Hg. unfold run. rewrite bind_self_generated, Hg. cbn [negb].
  now repeat py_step.
Qed.

(** [run] on a sequence whose flag is not set, when [generate] returns. *)
Lemma run_not_generated (w w1 : World) :
  generated (self w) = false ->
  generate 1 [BNC_IN_A_RISING] w = (Returned tt, w1) ->
  run w =
  (Returned tt,
   mkWorld (self w1) (dds w1 ++ [wieserlabsdds.run (slot (self w1))])
     (stdout w1)).
Proof.
  intros Hg Hgen. unfold run. rewrite bind_self_generated, Hg. cbn [negb].
  now rewrite (bind_returned _ _ _ _ _ Hgen).
Qed.

(** [run] on a sequence whose flag is not set, when [generate] raises. *)
Lemma run_not_generated_raises (w w1 : World) (e : PyExc) :
  generated (self w) = false ->
  generate 1 [BNC_IN_A_RISING] w = (Raised e, w1) ->
  run w = (Raised e, w1).
Proof.
  intros Hg Hgen. unfold run. rewrite bind_self_generated, Hg. cbn [negb].
  now rewrite (bind_raised _ _ _ _ _ Hgen).
Qed.

Lemma run_self (w : World) :
  self (snd (run w)) = self w
  \/ (self (snd (run w)) = with_generated true (self w)
      /\ pulses (self w) <> []
      /\ generated (self w) = false
      /\ fst (run w) = Returned tt).
Proof.
  destruct (generated (self w)) eqn:Hg.
  - left. now rewrite run_generated.
  - pose proof (generate_self 1 [BNC_IN_A_RISING] w) as Hs.
    destruct (generate 1 [BNC_IN_A_RISING] w) as [[[] | e] w1] eqn:Hgen.
    + rewrite (run_not_generated _ _ Hg Hgen). cbn [fst snd self] in *.
      destruct Hs as [Hs | [Hs [Hps _]]]; [now left | right].
      now repeat split.
    + rewrite (run_not_generated_raises _ _ _ Hg Hgen). cbn [fst snd] in *.
      destruct Hs as [Hs | [_ [_ Hs]]]; [now left | discriminate].
Qed.

(** A method call either leaves the flag as it is, or it sets it on a
    sequence with pulses. *)
Lemma call_generated (m : Method) (w : World) :
  generated (self (snd (call m w))) = generated (self w)
  \/ (generated (self (snd (call m w))) = true /\ pulses (self w) <> []).
Proof.
  destruct m as [d f a ph | trigger_option trigger |]; cbn [call].
  - now left.
  - destruct (generate_self trigger_option trigger w) as [-> | [-> [Hps _]]];
      [now left | now right].
  - destruct (run_self w) as [-> | [-> [Hps _]]]; [now left | now right].
Qed.

Lemma call_pulses_nonempty (m : Method) (w : World) :
  pulses (self w) <> [] -> pulses (self (snd (call m w))) <> [].
Proof.
  intros Hps. destruct m as [d f a ph | trigger_option trigger |]; cbn [call].
  - cbn. intros H. now apply app_eq_nil in H.
  - now destruct (generate_self trigger_option trigger w) as [-> | [-> _]].
  - now destruct (run_self w) as [-> | [-> _]].
Qed.

(** On every sequence a caller can build, a set flag means that there are
    pulses. *)
Lemma reachable_generated_pulses (w : World) :
  reachable w -> generated (self w) = true -> pulses (self w) <> [].
Proof.
  induction 1 as [s c df da | w c Hw IH | w m Hw IH]; cbn.
  - discriminate.
  - exact IH.
  - intros Hg. destruct (call_generated m w) as [E | [_ Hps]].
    + apply call_pulses_nonempty, IH. now rewrite <- E.
    + now apply call_pulses_nonempty.
Qed.

(** ** The operation stream of [generate] *)

(** On every sequence of [n] pulses that has the attribute [channel],
    [generate] returns and emits [n + 2] stage calls, [n + 2] commit calls
    and [n + 1] waits by duration, whatever the trigger option. *)
Corollary generate_counts (trigger_option : Z) (trigger : list TriggerEvent)
  (w : World) (c : Z) :
  pulses (self w) <> [] ->
  channel (self w) = Some c ->
  exists ops,
    generate trigger_option trigger w
    = (Returned tt,
       mkWorld (with_generated true (self w)) (dds w ++ ops) (warned w))
    /\ count is_stage ops = (List.length (pulses (self w)) + 2)%nat
    /\ count is_commit ops = (List.length (pulses (self w)) + 2)%nat
    /\ count is_wait_time ops = (List.length (pulses (self w)) + 1)%nat.
Proof.
  intros Hps Hc. exists (emitted (self w) c trigger_option trigger).
  split; [now apply generate_returns |].
  destruct (emitted_counts (self w) c trigger_option trigger Hps)
    as [H1 [H2 [H3 _]]].
  now repeat split.
Qed.

Lemma nth_length_last {A : Type} (l : list A) (a d : A) :
  nth (List.length l) (a :: l) d = last (a :: l) d.
Proof.
  revert a. induction l as [|b l IH]; intros a; [reflexivity |].
  change (nth (List.length l) (b :: l) d = last (b :: l) d). apply IH.
Qed.

Lemma emitted_nonempty (o : obj) (c : Z) (trigger_option : Z)
  (trigger : list TriggerEvent) (p0 : Pulse) (ps : list Pulse) :
  pulses o = p0 :: ps ->
  emitted o c trigger_option trigger =
  prime_calls o c p0 trigger_option trigger
    ++ flat_map (loop_calls_at o c) (range (List.length (pulses o)))
    ++ shutdown_calls o c
         (loop_last o (range (List.length (pulses o))) p0).
Proof.
  intros E. unfold emitted. now rewrite E.
Qed.

(** Under [trigger_option = 0] the stream is: stage of the first pulse,
    commit; then for every index [k] from 0 on, stage of pulse [k], wait for
    the pulse before it (for the last pulse at [k = 0]), commit; then the
    stage with amplitude 0, wait for the last pulse, commit. *)
Corollary emitted_immediate (o : obj) (c : Z) (trigger : list TriggerEvent)
  (p0 : Pulse) (ps : list Pulse) :
  pulses o = p0 :: ps ->
  emitted o c 0 trigger =
  [stage o c p0 None; commit o c]
    ++ flat_map
         (fun k => [stage o c (nth k (pulses o) p0) (Some "c"%string);
                    wait (waited_for o p0 k);
                    commit o c])
         (seq 0 (List.length (pulses o)))
    ++ [stage_off o c (last (pulses o) p0);
        wait (last (pulses o) p0);
        commit o c].
Proof.
  intros E. rewrite (emitted_nonempty o c 0 trigger p0 ps E).
  rewrite (flat_map_loop_calls_at o c p0 _ (Nat.le_refl _)).
  unfold shutdown_calls.
  rewrite (py_getitem_minus_one (pulses o) p0) by (now rewrite E).
  rewrite (loop_last_range o p0 _ (Nat.le_refl _)).
  assert (Hl : match List.length (pulses o) with
               | O => p0
               | S k => nth k (pulses o) p0
               end = last (pulses o) p0)
    by (rewrite E; apply nth_length_last).
  now rewrite Hl.
Qed.

(** ** Rotations *)

(** On binary64 numbers, zero times a finite number compares equal to
    zero (it is [0.0] or [-0.0]). *)
Lemma mul_zero_finite (x : float) :
  is_finite x = true -> (0 * x =? 0)%float = true.
Proof.
  intros H. rewrite FloatAxioms.eqb_spec, FloatAxioms.mul_spec.
  unfold is_finite, is_nan, is_infinity in H.
  rewrite !FloatAxioms.eqb_spec, FloatAxioms.abs_spec in H.
  change (Prim2SF 0) with (S754_zero false).
  change (Prim2SF infinity) with (S754_infinity false) in H.
  destruct (Prim2SF x) as [s | s | | s m e]; try reflexivity;
    try destruct s; cbv in H; try discriminate; reflexivity.
Qed.

(** The axis angles 0 and pi/2 in degrees. *)
Lemma phase_of_x_axis : (0 / pi * 180)%float = 0%float.
Proof. reflexivity. Qed.

Lemma phase_of_y_axis : (pi / 2 / pi * 180)%float = 90%float.
Proof. reflexivity. Qed.

(** * The claims *)

(** C1: compiling under [trigger_option = 0].  The code departs from the
    claimed stream of n+1 stage, n+1 commit and n wait calls.  On the
    two-pulse example a constructed sequence raises AttributeError before
    any device call, as [__init__] never assigns [channel]; once a caller
    has assigned [channel], [generate] emits 4 stage, 4 commit and 3 wait
    calls: its loop starts at index 0, so the first pulse is staged a second
    time and the first wait lasts the duration of the last pulse. *)
Theorem generate_immediate_example :
  generate 0 [BNC_IN_A_RISING] (fresh example_sequence)
  = (Raised (AttributeError "channel"), fresh example_sequence)
  /\ generate 0 [BNC_IN_A_RISING] (fresh (set_channel 2 example_sequence))
     = (Returned tt,
        mkWorld (with_generated true (set_channel 2 example_sequence))
          [single_tone 2 2 1e6 1 0 None;
           push_update 2 2;
           single_tone 2 2 1e6 1 0 (Some "c"%string);
           wait_time 2e-6 false;
           push_update 2 2;
           single_tone 2 2 2e6 0.5 90 (Some "c"%string);
           wait_time 1e-6 false;
           push_update 2 2;
           single_tone 2 2 2e6 0 90 (Some "c"%string);
           wait_time 2e-6 false;
           push_update 2 2]
          []).
Proof.
  split.
  - now rewrite generate_raises.
  - rewrite (generate_returns 0 [BNC_IN_A_RISING] _ 2) by easy.
    reflexivity.
Qed.

(** C2: compiling under [trigger_option = 2].  The code departs from the
    claim and from the docstring of [generate]: it only tests
    [trigger_option == 0], so option 2 behaves as option 1 on every
    sequence, and on the two-pulse example every wait after the first
    trigger is a [wait_time] for a pulse duration. *)
Theorem generate_per_pulse_trigger_example :
  (forall (trigger : list TriggerEvent) (w : World),
      generate 2 trigger w = generate 1 trigger w)
  /\ dds (snd (generate 2 [BNC_IN_A_RISING]
                 (fresh (set_channel 2 example_sequence))))
     = [single_tone 2 2 1e6 1 0 (Some "c"%string);
        wait_trigger 2 2 [BNC_IN_A_RISING] false;
        push_update 2 2;
        single_tone 2 2 1e6 1 0 (Some "c"%string);
        wait_time 2e-6 false;
        push_update 2 2;
        single_tone 2 2 2e6 0.5 90 (Some "c"%string);
        wait_time 1e-6 false;
        push_update 2 2;
        single_tone 2 2 2e6 0 90 (Some "c"%string);
        wait_time 2e-6 false;
        push_update 2 2].
Proof.
  split.
  - intros trigger w. reflexivity.
  - rewrite (generate_returns 2 [BNC_IN_A_RISING] _ 2) by easy.
    reflexivity.
Qed.

(** C3: the identifiers given at construction.  The code departs from the
    claim: [__init__] stores the channel in [slot] and never assigns
    [channel], so [generate] on a constructed sequence with a pulse raises
    AttributeError; and when a caller has assigned [channel], the slot sent
    to the device is the channel given at construction, and the [wait_time]
    calls carry neither identifier. *)
Theorem init_stores_channel_as_slot :
  (forall (s c : Z) (df da : float),
      slot (__init__ s c df da) = c /\ channel (__init__ s c df da) = None)
  /\ generate 0 [BNC_IN_A_RISING]
       (fresh (add_pulse 1e-6 None None 0 (__init__ 1 2 1e6 1)))
     = (Raised (AttributeError "channel"),
        fresh (add_pulse 1e-6 None None 0 (__init__ 1 2 1e6 1)))
  /\ map addressed
       (dds (snd (generate 0 [BNC_IN_A_RISING]
                    (fresh (set_channel 2
                              (add_pulse 1e-6 None None 0
                                 (__init__ 1 2 1e6 1)))))))
     = [Some (2, Some 2); Some (2, Some 2);
        Some (2, Some 2); None; Some (2, Some 2);
        Some (2, Some 2); None; Some (2, Some 2)]%Z.
Proof.
  split; [| split].
  - intros s c df da. split; reflexivity.
  - now rewrite generate_raises.
  - rewrite (generate_returns 0 [BNC_IN_A_RISING] _ 2) by easy.
    reflexivity.
Qed.

(** C4: the rotation builder.  For every rotation angle [theta],
    [add_x_pulse theta] and [add_pulse 0 theta] append pulses of phase 0 and
    of duration [theta / pi * pi_pulse_time]; [add_y_pulse theta] and
    [add_pulse (pi / 2) theta] append pulses of phase 90 and of the same
    duration; and when [pi_pulse_time] is a finite number, the pulse
    [add_x_pulse 0] appends has a duration equal to 0. *)
Theorem rotation_mapping (q : QubitPulseSequence.obj) (theta : float) :
  let old := pulses (QubitPulseSequence.super q) in
  let f := QubitPulseSequence.freq q in
  let a := QubitPulseSequence.amp q in
  let duration :=
    (theta / pi * QubitPulseSequence.pi_pulse_time q)%float in
  pulses (QubitPulseSequence.super (QubitPulseSequence.add_x_pulse theta q))
  = old ++ [mkPulse class_XPulse f a 0 duration]
  /\ pulses
       (QubitPulseSequence.super (QubitPulseSequence.add_pulse 0 theta q))
     = old ++ [mkPulse class_Pulse f a 0 duration]
  /\ pulses
       (QubitPulseSequence.super (QubitPulseSequence.add_y_pulse theta q))
     = old ++ [mkPulse class_YPulse f a 90 duration]
  /\ pulses
       (QubitPulseSequence.super
          (QubitPulseSequence.add_pulse (pi / 2) theta q))
     = old ++ [mkPulse class_Pulse f a 90 duration]
  /\ (is_finite (QubitPulseSequence.pi_pulse_time q) = true ->
      exists d : float,
        pulses
          (QubitPulseSequence.super (QubitPulseSequence.add_x_pulse 0 q))
        = old ++ [mkPulse class_XPulse f a 0 d]
        /\ (d =? 0)%float = true).
Proof.
  intros old f a duration.
  unfold QubitPulseSequence.add_x_pulse, QubitPulseSequence.add_y_pulse,
    QubitPulseSequence.add_pulse, QubitPulseSequence.pulses_append,
    QubitPulseSequence._angle_to_time, XPulse_init, YPulse_init, Pulse_init.
  cbn [QubitPulseSequence.super pulses pulses_append].
  rewrite phase_of_x_axis, phase_of_y_axis.
  repeat (split; [reflexivity |]).
  intros Hfin.
  exists (0 / pi * QubitPulseSequence.pi_pulse_time q)%float.
  split; [reflexivity |].
  change (0 / pi)%float with 0%float. now apply mul_zero_finite.
Qed.

Lemma rotation_mapping_witness :
  exists d : float,
    pulses
      (QubitPulseSequence.super
         (QubitPulseSequence.add_x_pulse 0
            (QubitPulseSequence.__init__ 1 2 1e-6 1e6 1)))
    = [] ++ [mkPulse class_XPulse 1e6 1 0 d]
    /\ (d =? 0)%float = true.
Proof.
  destruct (rotation_mapping (QubitPulseSequence.__init__ 1 2 1e-6 1e6 1) pi)
    as (_ & _ & _ & _ & H).
  apply H. reflexivity.
Defined.

(** C5: on a sequence without pulses [generate] returns without raising,
    prints the diagnostic about the missing pulses (after the warning about
    repeated generation, when the flag is set), makes no device call and
    leaves the sequence object as it is. *)
Theorem generate_without_pulses (trigger_option : Z)
  (trigger : list TriggerEvent) (w : World) :
  pulses (self w) = [] ->
  fst (generate trigger_option trigger w) = Returned tt
  /\ dds (snd (generate trigger_option trigger w)) = dds w
  /\ stdout (snd (generate trigger_option trigger w))
     = stdout w
         ++ (if generated (self w) then [WARNING_GENERATED] else [])
         ++ [WARNING_NO_PULSES]
  /\ self (snd (generate trigger_option trigger w)) = self w.
Proof.
  intros Hps. rewrite generate_no_pulses by exact Hps.
  unfold warned. cbn [fst snd self dds stdout].
  rewrite <- app_assoc. now repeat split.
Qed.

Lemma generate_without_pulses_witness :
  pulses (self (fresh (__init__ 1 2 1e6 1))) = []
  /\ fst (generate 0 [BNC_IN_A_RISING] (fresh (__init__ 1 2 1e6 1)))
     = Returned tt
  /\ dds (snd (generate 0 [BNC_IN_A_RISING] (fresh (__init__ 1 2 1e6 1))))
     = []
  /\ stdout (snd (generate 0 [BNC_IN_A_RISING] (fresh (__init__ 1 2 1e6 1))))
     = [WARNING_NO_PULSES]
  /\ self (snd (generate 0 [BNC_IN_A_RISING] (fresh (__init__ 1 2 1e6 1))))
     = __init__ 1 2 1e6 1.
Proof.
  split; [reflexivity |].
  apply (generate_without_pulses 0 [BNC_IN_A_RISING]
           (fresh (__init__ 1 2 1e6 1))).
  reflexivity.
Defined.

(** C6: a second [generate].  When a call of [generate] has returned and
    left the flag set, a second call, with any arguments, returns as well:
    it prints the warning about repeated generation first and sends the
    device the full stream of calls once more (on [n] pulses again [n + 2]
    stage calls, [n + 2] commits and [n + 1] waits by duration; with the
    arguments of the first call, the very calls of the first call); the
    sequence object, flag included, stays as it was. *)
Theorem generate_twice (trigger_option trigger_option' : Z)
  (trigger trigger' : list TriggerEvent) (w w1 : World) :
  generate trigger_option trigger w = (Returned tt, w1) ->
  generated (self w1) = true ->
  exists ops ops' : list Call,
    dds w1 = dds w ++ ops
    /\ generate trigger_option' trigger' w1
       = (Returned tt,
          mkWorld (self w1) (dds w1 ++ ops')
            (stdout w1 ++ WARNING_GENERATED
               :: (if Z.of_nat (List.length (pulses (self w1))) =? 0
                   then [WARNING_NO_PULSES] else [])%Z))
    /\ (pulses (self w1) <> [] ->
        count is_stage ops' = (List.length (pulses (self w1)) + 2)%nat
        /\ count is_commit ops' = (List.length (pulses (self w1)) + 2)%nat
        /\ count is_wait_time ops'
           = (List.length (pulses (self w1)) + 1)%nat)
    /\ (trigger_option' = trigger_option -> trigger' = trigger ->
        ops' = ops).
Proof.
  intros Hgen Hg.
  destruct (pulses (self w)) as [|p0 ps] eqn:E.
  - rewrite generate_no_pulses in Hgen by exact E.
    injection Hgen as <-. cbn [self dds stdout] in *.
    exists [], []. rewrite !app_nil_r. split; [reflexivity |].
    split; [| split; [intros H; now contradiction H | reflexivity]].
    rewrite generate_no_pulses by exact E.
    unfold warned. cbn [self dds stdout]. rewrite Hg, E.
    now rewrite <- !app_assoc.
  - assert (Hps : pulses (self w) <> []) by now rewrite E.
    destruct (channel (self w)) as [c|] eqn:Hc.
    + rewrite (generate_returns _ _ _ c Hps Hc) in Hgen.
      injection Hgen as <-. cbn [self dds stdout] in *.
      exists (emitted (self w) c trigger_option trigger),
        (emitted (self w) c trigger_option' trigger').
      split; [reflexivity |]. split; [| split].
      * rewrite (generate_returns _ _ _ c) by (cbn; assumption).
        unfold warned. cbn [self dds stdout generated with_generated pulses].
        now rewrite E.
      * intros _. cbn [with_generated pulses].
        destruct (emitted_counts (self w) c trigger_option' trigger' Hps)
          as [H1 [H2 [H3 _]]].
        now repeat split.
      * now intros -> ->.
    + rewrite (generate_raises _ _ _ Hps Hc) in Hgen. discriminate.
Qed.

Lemma generate_twice_witness :
  exists ops ops' : list Call,
    dds (snd (generate 0 [BNC_IN_A_RISING]
                (fresh (set_channel 2 example_sequence))))
    = [] ++ ops
    /\ generate 0 [BNC_IN_A_RISING]
         (snd (generate 0 [BNC_IN_A_RISING]
                 (fresh (set_channel 2 example_sequence))))
       = (Returned tt,
          mkWorld (with_generated true (set_channel 2 example_sequence))
            (dds (snd (generate 0 [BNC_IN_A_RISING]
                         (fresh (set_channel 2 example_sequence))))
               ++ ops')
            [WARNING_GENERATED])
    /\ (pulses (set_channel 2 example_sequence) <> [] ->
        count is_stage ops' = 4%nat
        /\ count is_commit ops' = 4%nat
        /\ count is_wait_time ops' = 3%nat)
    /\ (0%Z = 0%Z -> [BNC_IN_A_RISING] = [BNC_IN_A_RISING] -> ops' = ops).
Proof.
  apply (generate_twice 0 0 [BNC_IN_A_RISING] [BNC_IN_A_RISING]
           (fresh (set_channel 2 example_sequence))
           (snd (generate 0 [BNC_IN_A_RISING]
                   (fresh (set_channel 2 example_sequence))))).
  - now rewrite (generate_returns 0 [BNC_IN_A_RISING] _ 2).
  - now rewrite (generate_returns 0 [BNC_IN_A_RISING] _ 2).
Defined.

(** C7: [run].  The code departs from the claim on a sequence that was not
    generated yet: on the constructed two-pulse example [run] raises
    AttributeError inside [generate], before any device call, and never
    starts the playback.  Once a caller has assigned [channel], the first
    [run] generates with the default arguments and then calls [run] of the
    device once, and a second [run] only adds one more such call. *)
Theorem run_example :
  run (fresh example_sequence)
  = (Raised (AttributeError "channel"), fresh example_sequence)
  /\ run (fresh (set_channel 2 example_sequence))
     = (Returned tt,
        mkWorld (with_generated true (set_channel 2 example_sequence))
          [single_tone 2 2 1e6 1 0 (Some "c"%string);
           wait_trigger 2 2 [BNC_IN_A_RISING] false;
           push_update 2 2;
           single_tone 2 2 1e6 1 0 (Some "c"%string);
           wait_time 2e-6 false;
           push_update 2 2;
           single_tone 2 2 2e6 0.5 90 (Some "c"%string);
           wait_time 1e-6 false;
           push_update 2 2;
           single_tone 2 2 2e6 0 90 (Some "c"%string);
           wait_time 2e-6 false;
           push_update 2 2;
           wieserlabsdds.run 2]
          [])
  /\ dds (snd (run (snd (run (fresh (set_channel 2 example_sequence))))))
     = dds (snd (run (fresh (set_channel 2 example_sequence))))
         ++ [wieserlabsdds.run 2].
Proof.
  assert (Hgen : generate 1 [BNC_IN_A_RISING]
                   (fresh (set_channel 2 example_sequence))
                 = (Returned tt,
                    mkWorld
                      (with_generated true (set_channel 2 example_sequence))
                      (emitted (set_channel 2 example_sequence) 2 1
                         [BNC_IN_A_RISING])
                      [])).
  { apply (generate_returns 1 [BNC_IN_A_RISING]
             (fresh (set_channel 2 example_sequence)) 2);
      [discriminate | reflexivity]. }
  assert (H1 : run (fresh (set_channel 2 example_sequence))
               = (Returned tt,
                  mkWorld
                    (with_generated true (set_channel 2 example_sequence))
                    (emitted (set_channel 2 example_sequence) 2 1
                       [BNC_IN_A_RISING] ++ [wieserlabsdds.run 2])
                    [])).
  { apply (run_not_generated (fresh (set_channel 2 example_sequence)) _
             eq_refl Hgen). }
  split; [| split].
  - apply (run_not_generated_raises (fresh example_sequence));
      [reflexivity |].
    apply (generate_raises 1 [BNC_IN_A_RISING] (fresh example_sequence));
      [discriminate | reflexivity].
  - rewrite H1. reflexivity.
  - rewrite H1. cbn [snd]. rewrite run_generated by reflexivity.
    reflexivity.
Qed.

(** C8: [run] on a sequence without pulses, for every sequence a caller can
    build: it returns, the one device call it makes is [run] for the stored
    slot, it prints the diagnostic about the missing pulses, and the flag is
    not set afterwards. *)
Theorem run_without_pulses (w : World) :
  reachable w ->
  pulses (self w) = [] ->
  fst (run w) = Returned tt
  /\ dds (snd (run w)) = dds w ++ [wieserlabsdds.run (slot (self w))]
  /\ stdout (snd (run w)) = stdout w ++ [WARNING_NO_PULSES]
  /\ self (snd (run w)) = self w
  /\ generated (self (snd (run w))) = false.
Proof.
  intros Hw Hps.
  assert (Hg : generated (self w) = false).
  { destruct (generated (self w)) eqn:Hg; [| reflexivity].
    now contradiction (reachable_generated_pulses w Hw Hg). }
  rewrite (run_not_generated w _ Hg (generate_no_pulses _ _ w Hps)).
  unfold warned. rewrite Hg, app_nil_r. cbn [fst snd self dds stdout].
  now repeat split.
Qed.

Lemma run_without_pulses_witness :
  fst (run (fresh (__init__ 1 2 1e6 1))) = Returned tt
  /\ dds (snd (run (fresh (__init__ 1 2 1e6 1)))) = [] ++ [wieserlabsdds.run 2]
  /\ stdout (snd (run (fresh (__init__ 1 2 1e6 1))))
     = [] ++ [WARNING_NO_PULSES]
  /\ self (snd (run (fresh (__init__ 1 2 1e6 1)))) = __init__ 1 2 1e6 1
  /\ generated (self (snd (run (fresh (__init__ 1 2 1e6 1))))) = false.
Proof.
  apply (run_without_pulses (fresh (__init__ 1 2 1e6 1))).
  - apply reachable_init.
  - reflexivity.
Defined.

(** C9: whatever the trigger option, the trigger list and the outcome,
    [generate] leaves the pulse list, the default frequency, the default
    amplitude, the slot and the channel of the sequence as they were: the
    flag is the one attribute it can change. *)
Theorem generate_frame (trigger_option : Z) (trigger : list TriggerEvent)
  (w : World) :
  same_configuration (self w)
    (self (snd (generate trigger_option trigger w)))
  /\ exists b : bool,
       self (snd (generate trigger_option trigger w))
       = with_generated b (self w).
Proof.
  destruct (generate_self trigger_option trigger w) as [-> | [-> _]].
  - split; [now repeat split |].
    exists (generated (self w)). now destruct (self w).
  - split; [now repeat split | now exists true].
Qed.

(** C10: the flag is not set at construction; no method call resets a set
    flag, whether the call returns or raises; and when a method call sets
    the flag, the sequence has pulses and the call is a [generate], or a
    [run] by way of its [generate], that returned and set it.  The adders
    of the rotation builder leave the flag alone. *)
Theorem generated_monotone :
  (forall (s c : Z) (df da : float), generated (__init__ s c df da) = false)
  /\ (forall (s c : Z) (ppt f a : float),
         generated
           (QubitPulseSequence.super (QubitPulseSequence.__init__ s c ppt f a))
         = false)
  /\ (forall (m : Method) (w : World),
         generated (self w) = true ->
         generated (self (snd (call m w))) = true)
  /\ (forall (m : Method) (w : World),
         generated (self w) = false ->
         generated (self (snd (call m w))) = true ->
         pulses (self w) <> []
         /\ exists trigger_option trigger w1,
              (m = call_generate trigger_option trigger \/ m = call_run)
              /\ generate trigger_option trigger w = (Returned tt, w1)
              /\ self w1 = with_generated true (self w)
              /\ self (snd (call m w)) = self w1)
  /\ (forall (q : QubitPulseSequence.obj) (phi theta : float),
         let flag q := generated (QubitPulseSequence.super q) in
         flag (QubitPulseSequence.add_pulse phi theta q) = flag q
         /\ flag (QubitPulseSequence.add_x_pulse theta q) = flag q
         /\ flag (QubitPulseSequence.add_y_pulse theta q) = flag q).
Proof.
  split; [reflexivity |]. split; [reflexivity |].
  split; [| split].
  - intros m w Hg.
    destruct (call_generated m w) as [-> | [-> _]]; [exact Hg | reflexivity].
  - intros m w Hg Hg'.
    destruct m as [d f a ph | trigger_option trigger |]; cbn [call] in *.
    + cbn in Hg'. congruence.
    + destruct (generate_self trigger_option trigger w)
        as [E | [E [Hps Hret]]]; [rewrite E in Hg'; congruence |].
      split; [exact Hps |].
      exists trigger_option, trigger,
        (snd (generate trigger_option trigger w)).
      split; [now left |].
      destruct (generate trigger_option trigger w) as [r w1].
      cbn [fst snd] in *. subst r. now repeat split.
    + destruct (generate_self 1 [BNC_IN_A_RISING] w) as [E | [E [Hps Hret]]].
      * exfalso.
        destruct (generate 1 [BNC_IN_A_RISING] w) as [[[] | e] w1] eqn:Hgen;
          cbn [snd] in E.
        -- rewrite (run_not_generated _ _ Hg Hgen) in Hg'.
           cbn [snd self] in Hg'. congruence.
        -- rewrite (run_not_generated_raises _ _ _ Hg Hgen) in Hg'.
           cbn [snd] in Hg'. congruence.
      * split; [exact Hps |].
        exists 1%Z, [BNC_IN_A_RISING], (snd (generate 1 [BNC_IN_A_RISING] w)).
        split; [now right |].
        destruct (generate 1 [BNC_IN_A_RISING] w) as [r w1] eqn:Hgen.
        cbn [fst snd] in *. subst r.
        rewrite (run_not_generated _ _ Hg Hgen). now repeat split.
  - intros q phi theta. now repeat split.
Qed.

(** * Further properties *)

(** ** The builders *)

(** X1: calls of [add_pulse] append one pulse each, in the order of the
    calls, after the pulses already there; an argument [freq] or [amp] left
    out is replaced by the default given at construction, whenever the call
    is made; and no other attribute of the sequence changes. *)
Theorem add_pulses_in_order (args : list add_pulse_args) (o : obj) :
  pulses (add_pulses args o)
  = pulses o
      ++ map (fun a =>
                mkPulse class_Pulse
                  (match arg_freq a with
                   | Some f => f
                   | None => default_freq o
                   end)
                  (match arg_amp a with
                   | Some x => x
                   | None => default_amp o
                   end)
                  (arg_phase a) (arg_t a))
           args
  /\ slot (add_pulses args o) = slot o
  /\ channel (add_pulses args o) = channel o
  /\ default_freq (add_pulses args o) = default_freq o
  /\ default_amp (add_pulses args o) = default_amp o
  /\ generated (add_pulses args o) = generated o.
Proof.
  revert o. induction args as [|a args IH]; intros o.
  - cbn. now rewrite app_nil_r.
  - cbn [add_pulses fold_left map].
    destruct (IH (add_pulse (arg_t a) (arg_freq a) (arg_amp a)
                    (arg_phase a) o))
      as (Hp & Hs & Hc & Hf & Ha & Hg).
    unfold add_pulses in *. rewrite Hp, Hs, Hc, Hf, Ha, Hg.
    split; [| now repeat split].
    cbn. now rewrite <- app_assoc.
Qed.

(** X2: calls of the adders of the rotation builder append one pulse each,
    in the order of the calls; every such pulse has the frequency and the
    amplitude fixed at construction and the duration
    [theta / pi * pi_pulse_time]; its phase is [phi / pi * 180], 0 or 90;
    and no other attribute changes. *)
Theorem add_rotations_in_order (rs : list rotation)
  (q : QubitPulseSequence.obj) :
  let f := QubitPulseSequence.freq q in
  let a := QubitPulseSequence.amp q in
  let ppt := QubitPulseSequence.pi_pulse_time q in
  let base := QubitPulseSequence.super in
  pulses (base (add_rotations rs q))
  = pulses (base q)
      ++ map (fun r =>
                match r with
                | rot phi theta =>
                    mkPulse class_Pulse f a (phi / pi * 180)
                      (theta / pi * ppt)
                | rot_x theta =>
                    mkPulse class_XPulse f a 0 (theta / pi * ppt)
                | rot_y theta =>
                    mkPulse class_YPulse f a 90 (theta / pi * ppt)
                end)
           rs
  /\ QubitPulseSequence.freq (add_rotations rs q) = f
  /\ QubitPulseSequence.amp (add_rotations rs q) = a
  /\ QubitPulseSequence.pi_pulse_time (add_rotations rs q) = ppt
  /\ slot (base (add_rotations rs q)) = slot (base q)
  /\ channel (base (add_rotations rs q)) = channel (base q)
  /\ default_freq (base (add_rotations rs q)) = default_freq (base q)
  /\ default_amp (base (add_rotations rs q)) = default_amp (base q)
  /\ generated (base (add_rotations rs q)) = generated (base q).
Proof.
  cbv zeta. revert q. induction rs as [|r rs IH]; intros q.
  - cbn. now rewrite app_nil_r.
  - cbn [add_rotations fold_left map].
    destruct (IH (add_rotation q r))
      as (Hp & Hf & Ha & Ht & Hs & Hc & Hdf & Hda & Hg).
    unfold add_rotations in *.
    rewrite Hp, Hf, Ha, Ht, Hs, Hc, Hdf, Hda, Hg.
    split; [| now destruct r].
    destruct r; cbn; now rewrite <- app_assoc.
Qed.

(** ** The stream of [generate], call by call *)

Lemma map_nth_seq {A : Type} (l : list A) (d : A) (m : nat) :
  (m <= List.length l)%nat ->
  map (fun k => nth k l d) (seq 0 m) = firstn m l.
Proof.
  revert m. induction l as [|a l IH]; intros [|m] Hm; simpl in *;
    try reflexivity; try lia.
  f_equal. rewrite <- seq_shift, map_map. apply IH. lia.
Qed.

Lemma filter_flat_map (f : Call -> bool) (g h : nat -> list Call)
  (l : list nat) :
  (forall k, filter f (g k) = h k) ->
  filter f (flat_map g l) = flat_map h l.
Proof.
  intros Hg. induction l as [|k l IH]; [reflexivity |].
  simpl. now rewrite filter_app, Hg, IH.
Qed.

Lemma flat_map_single {A B : Type} (f : A -> B) (l : list A) :
  flat_map (fun x => [f x]) l = map f l.
Proof.
  induction l as [|x l IH]; [reflexivity |]. simpl. now rewrite IH.
Qed.


Section Shape.

Variables (o : obj) (c : Z) (p0 : Pulse) (ps : list Pulse).
Hypothesis Hps : pulses o = p0 :: ps.

(** The calls of the loop and the calls after it, pulse by pulse. *)
Lemma emitted_shape (trigger_option : Z) (trigger : list TriggerEvent) :
  emitted o c trigger_option trigger =
  prime_calls o c p0 trigger_option trigger
    ++ flat_map
         (fun k => [stage o c (nth k (pulses o) p0) (Some "c"%string);
                    wait (waited_for o p0 k);
                    commit o c])
         (seq 0 (List.length (pulses o)))
    ++ [stage_off o c (last (pulses o) p0);
        wait (last (pulses o) p0);
        commit o c].
Proof.
  rewrite (emitted_nonempty o c trigger_option trigger p0 ps Hps).
  rewrite (flat_map_loop_calls_at o c p0 _ (Nat.le_refl _)).
  unfold shutdown_calls.
  rewrite (py_getitem_minus_one (pulses o) p0) by (now rewrite Hps).
  rewrite (loop_last_range o p0 _ (Nat.le_refl _)).
  assert (Hl : match List.length (pulses o) with
               | O => p0
               | S k => nth k (pulses o) p0
               end = last (pulses o) p0)
    by (rewrite Hps; apply nth_length_last).
  now rewrite Hl.
Qed.

(** The pulses the loop stages are the pulses of the list, in order. *)
Lemma staged_in_loop :
  map (fun k => nth k (pulses o) p0) (seq 0 (List.length (pulses o)))
  = pulses o.
Proof.
  rewrite map_nth_seq by lia. apply firstn_all.
Qed.

(** The pulses the loop waits for: the last one, then all but the last. *)
Lemma waited_in_loop :
  map (waited_for o p0) (seq 0 (List.length (pulses o)))
  = last (pulses o) p0 :: removelast (pulses o).
Proof.
  rewrite Hps at 1. cbn [List.length seq map waited_for]. f_equal.
  rewrite <- seq_shift, map_map. cbn [waited_for].
  rewrite map_nth_seq by (rewrite Hps; simpl; lia).
  rewrite removelast_firstn_len. now rewrite Hps.
Qed.

End Shape.

Lemma last_default {A : Type} (l : list A) (d d' : A) :
  l <> [] -> last l d = last l d'.
Proof.
  induction l as [|a l IH]; intros Hl; [contradiction |].
  destruct l as [|b l]; [reflexivity |].
  change (last (b :: l) d = last (b :: l) d'). now apply IH.
Qed.

(** X3: the waits of one [generate].  On a sequence with pulses and with
    the attribute [channel], the calls of [wait_time] that [generate] adds
    are, in order: one for the duration of the last pulse, then one for the
    duration of every pulse of the list; all with
    [update_before_wait=False]. *)
Theorem generate_waits (trigger_option : Z) (trigger : list TriggerEvent)
  (w : World) (c : Z) (d : Pulse) :
  pulses (self w) <> [] ->
  channel (self w) = Some c ->
  filter is_wait_time (dds (snd (generate trigger_option trigger w)))
  = filter is_wait_time (dds w)
      ++ wait_time (t (last (pulses (self w)) d)) false
         :: map (fun p => wait_time (t p) false) (pulses (self w)).
Proof.
  intros Hps Hc. rewrite (generate_returns _ _ _ c Hps Hc).
  cbn [snd dds]. rewrite filter_app. f_equal.
  destruct (pulses (self w)) as [|p0 ps] eqn:E; [contradiction |].
  rewrite <- E.
  rewrite (emitted_shape (self w) c p0 ps E).
  rewrite !filter_app.
  rewrite (filter_flat_map is_wait_time _
             (fun k => [wait (waited_for (self w) p0 k)]))
    by reflexivity.
  rewrite flat_map_single, <- (map_map (waited_for (self w) p0) wait).
  rewrite (waited_in_loop (self w) p0 ps E).
  replace (filter is_wait_time
             (prime_calls (self w) c p0 trigger_option trigger))
    with (@nil Call)
    by (unfold prime_calls; now destruct (trigger_option =? 0)%Z).
  cbn [filter is_wait_time stage_off wait commit app map].
  rewrite (last_default _ d p0) by (now rewrite E).
  assert (Hne : pulses (self w) <> []) by (now rewrite E).
  assert (Hsplit : map (fun p => wait_time (t p) false) (pulses (self w))
                   = map wait (removelast (pulses (self w)))
                       ++ [wait (last (pulses (self w)) p0)]).
  { rewrite (app_removelast_last p0 Hne) at 1. now rewrite map_app. }
  now rewrite Hsplit.
Qed.

Lemma generate_waits_witness :
  filter is_wait_time
    (dds (snd (generate 0 [BNC_IN_A_RISING]
                 (fresh (set_channel 2 example_sequence)))))
  = filter is_wait_time (dds (fresh (set_channel 2 example_sequence)))
      ++ wait_time
           (t (last (pulses (self (fresh (set_channel 2 example_sequence))))
                 (Pulse_init 0 0 0 0)))
           false
         :: map (fun p => wait_time (t p) false)
              (pulses (self (fresh (set_channel 2 example_sequence)))).
Proof.
  apply (generate_waits 0 [BNC_IN_A_RISING]
           (fresh (set_channel 2 example_sequence)) 2 (Pulse_init 0 0 0 0)).
  - discriminate.
  - reflexivity.
Defined.

(** X4: the parameter sets one [generate] stages.  On a sequence with
    pulses and with the attribute [channel], the calls of [single_tone]
    that [generate] adds are, in order: the first pulse (without suffix when
    [trigger_option] is 0, with suffix "c" otherwise), then every pulse of
    the list with suffix "c", the first one included, then the frequency
    and phase of the last pulse with amplitude 0 and suffix "c". *)
Theorem generate_stages (trigger_option : Z) (trigger : list TriggerEvent)
  (w : World) (c : Z) (d : Pulse) :
  pulses (self w) <> [] ->
  channel (self w) = Some c ->
  let s := slot (self w) in
  let first := hd d (pulses (self w)) in
  let final := last (pulses (self w)) d in
  filter is_stage (dds (snd (generate trigger_option trigger w)))
  = filter is_stage (dds w)
      ++ single_tone s c (freq first) (amp first) (phase first)
           (if (trigger_option =? 0)%Z then None else Some "c"%string)
         :: map (fun p =>
                   single_tone s c (freq p) (amp p) (phase p)
                     (Some "c"%string))
              (pulses (self w))
      ++ [single_tone s c (freq final) 0 (phase final) (Some "c"%string)].
Proof.
  intros Hps Hc s first final. subst s first final.
  rewrite (generate_returns _ _ _ c Hps Hc).
  cbn [snd dds]. rewrite filter_app. f_equal.
  destruct (pulses (self w)) as [|p0 ps] eqn:E; [contradiction |].
  rewrite <- E.
  rewrite (emitted_shape (self w) c p0 ps E).
  rewrite !filter_app.
  rewrite (filter_flat_map is_stage _
             (fun k => [stage (self w) c (nth k (pulses (self w)) p0)
                          (Some "c"%string)]))
    by reflexivity.
  rewrite flat_map_single.
  rewrite <- (map_map (fun k => nth k (pulses (self w)) p0)
                (fun p => stage (self w) c p (Some "c"%string))).
  rewrite (staged_in_loop (self w) p0).
  rewrite (last_default _ d p0) by (now rewrite E).
  rewrite E. cbn [hd]. unfold prime_calls.
  now destruct (trigger_option =? 0)%Z.
Qed.

Lemma generate_stages_witness :
  filter is_stage
    (dds (snd (generate 1 [BNC_IN_A_RISING]
                 (fresh (set_channel 2 example_sequence)))))
  = [single_tone 2 2 1e6 1 0 (Some "c"%string);
     single_tone 2 2 1e6 1 0 (Some "c"%string);
     single_tone 2 2 2e6 0.5 90 (Some "c"%string);
     single_tone 2 2 2e6 0 90 (Some "c"%string)].
Proof.
  apply (generate_stages 1 [BNC_IN_A_RISING]
           (fresh (set_channel 2 example_sequence)) 2 (Pulse_init 0 0 0 0)).
  - discriminate.
  - reflexivity.
Defined.

Lemma length_flat_map_const {A B : Type} (g : A -> list B) (n : nat)
  (l : list A) :
  (forall x, List.length (g x) = n) ->
  List.length (flat_map g l) = (n * List.length l)%nat.
Proof.
  intros Hg. induction l as [|x l IH]; [simpl; lia |].
  simpl. rewrite length_app, Hg, IH. lia.
Qed.

Lemma flat_map_ext_in {A B : Type} (f g : A -> list B) (l : list A) :
  (forall x, In x l -> f x = g x) -> flat_map f l = flat_map g l.
Proof.
  induction l as [|x l IH]; intros H; [reflexivity |].
  cbn. rewrite (H x (or_introl eq_refl)), IH; [reflexivity |].
  intros y Hy. apply H. now right.
Qed.

(** The pulse the loop waits for at index [k] is the one at index [k - 1]
    counted modulo the length of the list. *)
Lemma waited_for_mod (o : obj) (d : Pulse) (k : nat) :
  (k < List.length (pulses o))%nat ->
  waited_for o d k
  = nth ((k + List.length (pulses o) - 1) mod List.length (pulses o))
      (pulses o) d.
Proof.
  intros Hk. destruct k as [|k']; cbn [waited_for].
  - destruct (pulses o) as [|p ps] eqn:E; [simpl in Hk; lia |].
    cbn [List.length]. replace (0 + S (List.length ps) - 1)%nat
      with (List.length ps) by lia.
    rewrite Nat.mod_small by lia.
    rewrite (last_default _ d p) by discriminate.
    rewrite (nth_indep _ d p) by (simpl; lia).
    symmetry. apply nth_length_last.
  - replace (S k' + List.length (pulses o) - 1)%nat
      with (k' + 1 * List.length (pulses o))%nat by lia.
    rewrite Nat.Div0.mod_add. now rewrite Nat.mod_small by lia.
Qed.

(** X5: the whole stream of one [generate].  On a sequence of [n] pulses
    with the attribute [channel], [generate] adds: the stage of the first
    pulse and a commit, with a [wait_trigger] for the caller's trigger list
    in between unless [trigger_option] is 0; then for every index [k] from
    0 to [n - 1], in this order, the stage of pulse [k], the wait for the
    duration of pulse [k - 1] (counted modulo [n], so the last pulse at
    [k = 0]) and a commit; then the stage of amplitude 0 with the frequency
    and phase of the last pulse, the wait for its duration and a commit. *)
Theorem generate_stream (trigger_option : Z) (trigger : list TriggerEvent)
  (w : World) (c : Z) (d : Pulse) :
  pulses (self w) <> [] ->
  channel (self w) = Some c ->
  let s := slot (self w) in
  let ps := pulses (self w) in
  let n := List.length ps in
  let final := nth (n - 1) ps d in
  dds (snd (generate trigger_option trigger w))
  = dds w
      ++ (if (trigger_option =? 0)%Z
          then [single_tone s c (freq (nth 0 ps d)) (amp (nth 0 ps d))
                  (phase (nth 0 ps d)) None;
                push_update s c]
          else [single_tone s c (freq (nth 0 ps d)) (amp (nth 0 ps d))
                  (phase (nth 0 ps d)) (Some "c"%string);
                wait_trigger s c trigger false;
                push_update s c])
      ++ flat_map
           (fun k =>
              [single_tone s c (freq (nth k ps d)) (amp (nth k ps d))
                 (phase (nth k ps d)) (Some "c"%string);
               wait_time (t (nth ((k + n - 1) mod n) ps d)) false;
               push_update s c])
           (seq 0 n)
      ++ [single_tone s c (freq final) 0 (phase final) (Some "c"%string);
          wait_time (t final) false;
          push_update s c].
Proof.
  intros Hps Hc s ps n final. subst s ps n final.
  rewrite (generate_returns _ _ _ c Hps Hc). cbn [snd dds].
  destruct (pulses (self w)) as [|p0 l] eqn:E; [contradiction |].
  rewrite <- E.
  rewrite (emitted_shape (self w) c p0 l E).
  assert (Hlast : nth (List.length (pulses (self w)) - 1) (pulses (self w)) d
                  = last (pulses (self w)) p0).
  { rewrite E. cbn [List.length].
    replace (S (List.length l) - 1)%nat with (List.length l) by lia.
    rewrite (nth_indep _ d p0) by (simpl; lia). apply nth_length_last. }
  rewrite Hlast.
  assert (H0 : nth 0 (pulses (self w)) d = p0) by now rewrite E.
  rewrite H0.
  f_equal. unfold prime_calls.
  apply f_equal2; [now destruct (trigger_option =? 0)%Z |].
  apply f_equal2; [| reflexivity].
  apply flat_map_ext_in. intros k Hk. apply in_seq in Hk.
  rewrite (waited_for_mod (self w) p0 k) by lia.
  rewrite (nth_indep _ d p0 (n := k)) by lia.
  rewrite (nth_indep _ d p0
             (n := (k + List.length (pulses (self w)) - 1)
                   mod List.length (pulses (self w)))).
  - reflexivity.
  - apply Nat.mod_upper_bound. rewrite E. discriminate.
Qed.

Lemma generate_stream_witness :
  dds (snd (generate 1 [BNC_IN_A_RISING]
              (fresh (set_channel 2 example_sequence))))
  = []
      ++ [single_tone 2 2 1e6 1 0 (Some "c"%string);
          wait_trigger 2 2 [BNC_IN_A_RISING] false;
          push_update 2 2]
      ++ [single_tone 2 2 1e6 1 0 (Some "c"%string);
          wait_time 2e-6 false;
          push_update 2 2;
          single_tone 2 2 2e6 0.5 90 (Some "c"%string);
          wait_time 1e-6 false;
          push_update 2 2]
      ++ [single_tone 2 2 2e6 0 90 (Some "c"%string);
          wait_time 2e-6 false;
          push_update 2 2].
Proof.
  apply (generate_stream 1 [BNC_IN_A_RISING]
           (fresh (set_channel 2 example_sequence)) 2 (Pulse_init 0 0 0 0)).
  - discriminate.
  - reflexivity.
Defined.

(** Every call of one [generate] but the waits by duration carries the
    stored slot and the channel; none is a call of [run]. *)
Lemma emitted_addressed (o : obj) (c : Z) (trigger_option : Z)
  (trigger : list TriggerEvent) :
  Forall (fun k =>
            is_run k = false
            /\ addressed k
               = if is_wait_time k then None else Some (slot o, Some c))
    (emitted o c trigger_option trigger).
Proof.
  destruct (pulses o) as [|p0 ps] eqn:E.
  - unfold emitted. rewrite E. constructor.
  - rewrite (emitted_shape o c p0 ps E).
    repeat rewrite Forall_app. repeat split.
    + unfold prime_calls.
      destruct (trigger_option =? 0)%Z; repeat constructor.
    + apply Forall_flat_map, Forall_forall. intros k _. repeat constructor.
    + repeat constructor.
Qed.

Lemma emitted_no_run (o : obj) (c : Z) (trigger_option : Z)
  (trigger : list TriggerEvent) :
  filter is_run (emitted o c trigger_option trigger) = [].
Proof.
  pose proof (emitted_addressed o c trigger_option trigger) as Hall.
  induction Hall as [|k l [Hk _] _ IH]; [reflexivity |].
  cbn [filter]. now rewrite Hk.
Qed.

(** X6: the identifiers on the calls of one [generate].  On a sequence with
    the attribute [channel], every call that [generate] adds other than
    [wait_time] carries the stored slot and the stored channel, and the
    calls of [wait_time] carry neither. *)
Theorem generate_addresses (trigger_option : Z) (trigger : list TriggerEvent)
  (w : World) (c : Z) :
  channel (self w) = Some c ->
  exists ops : list Call,
    dds (snd (generate trigger_option trigger w)) = dds w ++ ops
    /\ Forall (fun k =>
                 addressed k
                 = if is_wait_time k then None
                   else Some (slot (self w), Some c))
         ops.
Proof.
  intros Hc. destruct (pulses (self w)) as [|p0 ps] eqn:E.
  - exists []. rewrite generate_no_pulses by exact E.
    cbn [snd dds]. now rewrite app_nil_r.
  - assert (Hps : pulses (self w) <> []) by now rewrite E.
    exists (emitted (self w) c trigger_option trigger).
    rewrite (generate_returns _ _ _ c Hps Hc). split; [reflexivity |].
    eapply Forall_impl; [| apply emitted_addressed].
    now intros k [_ H].
Qed.

Lemma generate_addresses_witness :
  exists ops : list Call,
    dds (snd (generate 0 [BNC_IN_A_RISING]
                (fresh (set_channel 7 example_sequence))))
    = [] ++ ops
    /\ Forall (fun k =>
                 addressed k
                 = if is_wait_time k then None else Some (2%Z, Some 7%Z))
         ops.
Proof.
  apply (generate_addresses 0 [BNC_IN_A_RISING]
           (fresh (set_channel 7 example_sequence)) 7).
  reflexivity.
Defined.

(** X7: [generate] never starts the playback: whatever the sequence and the
    arguments, and whether it returns or raises, it adds no call of [run]
    on the device. *)
Theorem generate_never_runs (trigger_option : Z)
  (trigger : list TriggerEvent) (w : World) :
  filter is_run (dds (snd (generate trigger_option trigger w)))
  = filter is_run (dds w).
Proof.
  destruct (pulses (self w)) as [|p0 ps] eqn:E.
  - now rewrite generate_no_pulses.
  - assert (Hps : pulses (self w) <> []) by now rewrite E.
    destruct (channel (self w)) as [c|] eqn:Hc.
    + rewrite (generate_returns _ _ _ c Hps Hc). cbn [snd dds].
      now rewrite filter_app, emitted_no_run, app_nil_r.
    + now rewrite (generate_raises _ _ _ Hps Hc).
Qed.

(** X8: [run] starts the playback once when it returns, as its last call
    and for the stored slot, and not at all when it raises. *)
Theorem run_starts_playback_once (w : World) :
  match fst (run w) with
  | Returned _ =>
      exists ops : list Call,
        dds (snd (run w))
        = dds w ++ ops ++ [wieserlabsdds.run (slot (self w))]
        /\ filter is_run ops = []
  | Raised e =>
      e = AttributeError "channel"
      /\ dds (snd (run w)) = dds w
  end.
Proof.
  destruct (generated (self w)) eqn:Hg.
  - rewrite run_generated by exact Hg. cbn [fst snd dds].
    now exists [].
  - destruct (pulses (self w)) as [|p0 ps] eqn:E.
    + rewrite (run_not_generated w _ Hg (generate_no_pulses _ _ w E)).
      cbn [fst snd self dds]. now exists [].
    + assert (Hps : pulses (self w) <> []) by now rewrite E.
      destruct (channel (self w)) as [c|] eqn:Hc.
      * rewrite (run_not_generated w _ Hg (generate_returns _ _ w c Hps Hc)).
        cbn [fst snd self dds with_generated slot].
        exists (emitted (self w) c 1 [BNC_IN_A_RISING]).
        rewrite <- app_assoc. split; [reflexivity |].
        apply emitted_no_run.
      * rewrite (run_not_generated_raises w _ _ Hg
                   (generate_raises _ _ w Hps Hc)).
        cbn [fst snd dds]. now split.
Qed.

(** ** Errors, diagnostics and the flag *)

(** X9: the one way [generate] fails by itself.  When [generate] raises,
    the exception is the AttributeError for [channel], the sequence has
    pulses and no attribute [channel], and neither the device nor the
    sequence object has been touched; when it returns, the sequence has no
    pulses or has the attribute. *)
Theorem generate_failure (trigger_option : Z) (trigger : list TriggerEvent)
  (w : World) :
  match fst (generate trigger_option trigger w) with
  | Raised e =>
      e = AttributeError "channel"
      /\ pulses (self w) <> []
      /\ channel (self w) = None
      /\ dds (snd (generate trigger_option trigger w)) = dds w
      /\ self (snd (generate trigger_option trigger w)) = self w
  | Returned _ => pulses (self w) = [] \/ channel (self w) <> None
  end.
Proof.
  destruct (pulses (self w)) as [|p0 ps] eqn:E.
  - rewrite generate_no_pulses by exact E. now left.
  - assert (Hps : pulses (self w) <> []) by now rewrite E.
    rewrite <- E. destruct (channel (self w)) as [c|] eqn:Hc.
    + rewrite (generate_returns _ _ _ c Hps Hc). now right.
    + rewrite (generate_raises _ _ _ Hps Hc). now repeat split.
Qed.

(** X10: what [generate] prints, in every case: the warning about repeated
    generation exactly when the flag is set on entry, then the diagnostic
    about missing pulses exactly when the list is empty, and nothing
    else, also when it raises. *)
Theorem generate_prints (trigger_option : Z) (trigger : list TriggerEvent)
  (w : World) :
  stdout (snd (generate trigger_option trigger w))
  = stdout w
      ++ (if generated (self w) then [WARNING_GENERATED] else [])
      ++ (match pulses (self w) with
          | [] => [WARNING_NO_PULSES]
          | _ :: _ => []
          end).
Proof.
  destruct (pulses (self w)) as [|p0 ps] eqn:E.
  - rewrite generate_no_pulses by exact E. unfold warned.
    cbn [snd stdout]. now rewrite <- app_assoc.
  - assert (Hps : pulses (self w) <> []) by now rewrite E.
    rewrite app_nil_r.
    destruct (channel (self w)) as [c|] eqn:Hc.
    + now rewrite (generate_returns _ _ _ c Hps Hc).
    + now rewrite (generate_raises _ _ _ Hps Hc).
Qed.

(** The flag and the channel of a sequence built through the classes
    alone, and the calls it has made. *)
Lemma built_by_methods_invariant (w : World) :
  built_by_methods w ->
  channel (self w) = None
  /\ generated (self w) = false
  /\ Forall (fun k => is_run k = true) (dds w).
Proof.
  induction 1 as [s c df da | w p Hw IH | w trigger_option trigger Hw IH
                 | w Hw IH].
  - now repeat split.
  - exact IH.
  - destruct IH as (Hc & Hg & Hd).
    destruct (pulses (self w)) as [|p0 ps] eqn:E.
    + rewrite generate_no_pulses by exact E. now repeat split.
    + assert (Hps : pulses (self w) <> []) by now rewrite E.
      rewrite (generate_raises _ _ _ Hps Hc). now repeat split.
  - destruct IH as (Hc & Hg & Hd).
    destruct (pulses (self w)) as [|p0 ps] eqn:E.
    + rewrite (run_not_generated w _ Hg (generate_no_pulses _ _ w E)).
      cbn [snd self dds]. repeat split; try assumption.
      apply Forall_app. split; [exact Hd | now repeat constructor].
    + assert (Hps : pulses (self w) <> []) by now rewrite E.
      rewrite (run_not_generated_raises w _ _ Hg
                 (generate_raises _ _ w Hps Hc)).
      now repeat split.
Qed.

(** X11: a sequence built through the classes alone (construction, adders,
    [generate], [run]) never has the attribute [channel] and never gets its
    flag set; the device has only ever received calls of [run]; and with
    pulses in the list both [generate] and [run] raise the AttributeError
    without a device call. *)
Theorem built_by_methods_never_stages (w : World) :
  built_by_methods w ->
  channel (self w) = None
  /\ generated (self w) = false
  /\ Forall (fun k => is_run k = true) (dds w)
  /\ (pulses (self w) <> [] ->
      (forall trigger_option trigger,
          fst (generate trigger_option trigger w)
          = Raised (AttributeError "channel")
          /\ dds (snd (generate trigger_option trigger w)) = dds w)
      /\ fst (run w) = Raised (AttributeError "channel")
      /\ dds (snd (run w)) = dds w).
Proof.
  intros Hw. destruct (built_by_methods_invariant w Hw) as (Hc & Hg & Hd).
  split; [exact Hc |]. split; [exact Hg |]. split; [exact Hd |].
  intros Hps. split.
  - intros trigger_option trigger.
    now rewrite (generate_raises _ _ _ Hps Hc).
  - now rewrite (run_not_generated_raises w _ _ Hg
                   (generate_raises _ _ w Hps Hc)).
Qed.

Lemma built_by_methods_never_stages_witness :
  channel (add_pulse 1e-6 None None 0 (__init__ 1 2 1e6 1)) = None
  /\ generated (add_pulse 1e-6 None None 0 (__init__ 1 2 1e6 1)) = false
  /\ Forall (fun k => is_run k = true) (@nil Call)
  /\ (pulses (add_pulse 1e-6 None None 0 (__init__ 1 2 1e6 1)) <> [] ->
      (forall trigger_option trigger,
          fst (generate trigger_option trigger
                 (fresh (add_pulse 1e-6 None None 0 (__init__ 1 2 1e6 1))))
          = Raised (AttributeError "channel")
          /\ dds (snd (generate trigger_option trigger
                         (fresh (add_pulse 1e-6 None None 0
                                   (__init__ 1 2 1e6 1)))))
             = [])
      /\ fst (run (fresh (add_pulse 1e-6 None None 0 (__init__ 1 2 1e6 1))))
         = Raised (AttributeError "channel")
      /\ dds (snd (run (fresh (add_pulse 1e-6 None None 0
                                 (__init__ 1 2 1e6 1)))))
         = []).
Proof.
  apply (built_by_methods_never_stages
           (fresh (add_pulse 1e-6 None None 0 (__init__ 1 2 1e6 1)))).
  apply (built_append (fresh (__init__ 1 2 1e6 1))).
  apply built_init.
Defined.

(** ** How the operations compose *)

Lemma add_pulses_keeps (args : list add_pulse_args) (o : obj) :
  slot (add_pulses args o) = slot o
  /\ channel (add_pulses args o) = channel o
  /\ generated (add_pulses args o) = generated o
  /\ (pulses o <> [] \/ args <> [] -> pulses (add_pulses args o) <> []).
Proof.
  revert o. induction args as [|a args IH]; intros o.
  - cbn. repeat split. now intros [H | H].
  - destruct (IH (add_pulse (arg_t a) (arg_freq a) (arg_amp a)
                    (arg_phase a) o)) as (Hs & Hc & Hg & Hp).
    cbn [add_pulses fold_left]. unfold add_pulses in *.
    rewrite Hs, Hc, Hg. repeat split. intros _. apply Hp. left.
    cbn. intros H. now apply app_eq_nil in H.
Qed.

(** X12: pulses added after a [generate] that completed are not sent by
    [run]: on a sequence whose flag is set, [run] after any calls of
    [add_pulse] makes the one device call [run] for the stored slot, prints
    nothing and leaves the flag set. *)
Theorem run_after_late_add_pulse (args : list add_pulse_args) (w : World) :
  generated (self w) = true ->
  run (mkWorld (add_pulses args (self w)) (dds w) (stdout w))
  = (Returned tt,
     mkWorld (add_pulses args (self w))
       (dds w ++ [wieserlabsdds.run (slot (self w))])
       (stdout w))
  /\ generated (add_pulses args (self w)) = true.
Proof.
  intros Hg. destruct (add_pulses_keeps args (self w)) as (Hs & _ & Hg' & _).
  rewrite Hg in Hg'. split; [| exact Hg'].
  rewrite run_generated by exact Hg'. cbn [self dds stdout].
  now rewrite Hs.
Qed.

Lemma run_after_late_add_pulse_witness :
  run (mkWorld
         (add_pulses [mk_args 3e-6 None None 0]
            (with_generated true (set_channel 2 example_sequence)))
         [] [])
  = (Returned tt,
     mkWorld
       (add_pulses [mk_args 3e-6 None None 0]
          (with_generated true (set_channel 2 example_sequence)))
       ([] ++ [wieserlabsdds.run 2])
       [])
  /\ generated
       (add_pulses [mk_args 3e-6 None None 0]
          (with_generated true (set_channel 2 example_sequence)))
     = true.
Proof.
  apply (run_after_late_add_pulse [mk_args 3e-6 None None 0]
           (fresh (with_generated true (set_channel 2 example_sequence)))).
  reflexivity.
Defined.



(** The stream of [generate] is a function of the slot, the channel, the
    pulses and the arguments. *)
Lemma emitted_ext (o1 o2 : obj) (c : Z) (trigger_option : Z)
  (trigger : list TriggerEvent) :
  slot o1 = slot o2 ->
  pulses o1 = pulses o2 ->
  emitted o1 c trigger_option trigger = emitted o2 c trigger_option trigger.
Proof.
  destruct o1 as [s1 c1 df1 da1 ps1 g1], o2 as [s2 c2 df2 da2 ps2 g2].
  cbn [slot pulses]. intros -> ->. reflexivity.
Qed.

(** X14: what [generate] sends depends on the stored slot, the channel, the
    pulse list and the arguments alone: two sequences that agree on these
    send the same calls, whatever their flags and default values and
    whatever was sent or printed before. *)
Theorem generate_stream_depends_on (trigger_option : Z)
  (trigger : list TriggerEvent) (w1 w2 : World) (c : Z) :
  slot (self w1) = slot (self w2) ->
  pulses (self w1) = pulses (self w2) ->
  channel (self w1) = Some c ->
  channel (self w2) = Some c ->
  exists ops : list Call,
    dds (snd (generate trigger_option trigger w1)) = dds w1 ++ ops
    /\ dds (snd (generate trigger_option trigger w2)) = dds w2 ++ ops.
Proof.
  intros Hs Hp Hc1 Hc2.
  destruct (pulses (self w2)) as [|p0 ps] eqn:E.
  - exists []. rewrite !generate_no_pulses by assumption.
    cbn [snd dds]. now rewrite !app_nil_r.
  - assert (Hps2 : pulses (self w2) <> []) by now rewrite E.
    assert (Hps1 : pulses (self w1) <> []) by now rewrite Hp.
    exists (emitted (self w2) c trigger_option trigger).
    rewrite (generate_returns _ _ _ c Hps1 Hc1).
    rewrite (generate_returns _ _ _ c Hps2 Hc2).
    cbn [snd dds]. split; [| reflexivity].
    f_equal. apply emitted_ext; [exact Hs | now rewrite E].
Qed.

Lemma generate_stream_depends_on_witness :
  exists ops : list Call,
    dds (snd (generate 0 [BNC_IN_A_RISING]
                (fresh (set_channel 2 example_sequence))))
    = [] ++ ops
    /\ dds (snd (generate 0 [BNC_IN_A_RISING]
                   (mkWorld
                      (with_generated true (set_channel 2 example_sequence))
                      [wieserlabsdds.run 2] [])))
       = [wieserlabsdds.run 2] ++ ops.
Proof.
  apply (generate_stream_depends_on 0 [BNC_IN_A_RISING]
           (fresh (set_channel 2 example_sequence))
           (mkWorld (with_generated true (set_channel 2 example_sequence))
              [wieserlabsdds.run 2] [])
           2);
    reflexivity.
Defined.

(** The base object of a rotation sequence after some adders is built
    through the classes alone. *)
Lemma add_rotations_built (rs : list rotation) (s c : Z)
  (ppt f a : float) :
  built_by_methods
    (fresh (QubitPulseSequence.super
              (add_rotations rs (QubitPulseSequence.__init__ s c ppt f a)))).
Proof.
  induction rs as [|r rs IH] using rev_ind.
  - apply built_init.
  - unfold add_rotations in *. rewrite fold_left_app. cbn [fold_left].
    set (q := fold_left add_rotation rs
                (QubitPulseSequence.__init__ s c ppt f a)) in *.
    destruct r as [phi theta | theta | theta];
      exact (built_append _ _ IH).
Qed.

(** X15: a rotation sequence inherits the constructor of the base class:
    after construction and any adders, at least one, both [generate] and
    [run] raise the AttributeError for [channel] and nothing reaches the
    device. *)
Theorem rotation_sequence_cannot_generate (rs : list rotation) (s c : Z)
  (ppt f a : float) (trigger_option : Z) (trigger : list TriggerEvent) :
  rs <> [] ->
  let w :=
    fresh (QubitPulseSequence.super
             (add_rotations rs (QubitPulseSequence.__init__ s c ppt f a))) in
  generate trigger_option trigger w = (Raised (AttributeError "channel"), w)
  /\ run w = (Raised (AttributeError "channel"), w).
Proof.
  intros Hrs w.
  destruct (built_by_methods_invariant w (add_rotations_built rs s c ppt f a))
    as (Hc & Hg & _).
  assert (Hps : pulses (self w) <> []).
  { subst w. cbn [self fresh]. clear Hc Hg.
    destruct (exists_last Hrs) as [rs' [r ->]].
    unfold add_rotations. rewrite fold_left_app. cbn [fold_left].
    destruct r; cbn; intros H; now apply app_eq_nil in H. }
  assert (Hgen : generate trigger_option trigger w
                 = (Raised (AttributeError "channel"), w)).
  { rewrite (generate_raises _ _ _ Hps Hc). unfold warned.
    rewrite Hg, app_nil_r. reflexivity. }
  split; [exact Hgen |].
  apply (run_not_generated_raises w w _ Hg).
  rewrite (generate_raises _ _ _ Hps Hc). unfold warned.
  rewrite Hg, app_nil_r. reflexivity.
Qed.

Lemma rotation_sequence_cannot_generate_witness :
  generate 0 [BNC_IN_A_RISING]
    (fresh (QubitPulseSequence.super
              (add_rotations [rot_x pi]
                 (QubitPulseSequence.__init__ 1 2 1e-6 1e6 1))))
  = (Raised (AttributeError "channel"),
     fresh (QubitPulseSequence.super
              (add_rotations [rot_x pi]
                 (QubitPulseSequence.__init__ 1 2 1e-6 1e6 1))))
  /\ run
       (fresh (QubitPulseSequence.super
                 (add_rotations [rot_x pi]
                    (QubitPulseSequence.__init__ 1 2 1e-6 1e6 1))))
     = (Raised (AttributeError "channel"),
        fresh (QubitPulseSequence.super
                 (add_rotations [rot_x pi]
                    (QubitPulseSequence.__init__ 1 2 1e-6 1e6 1)))).
Proof.
  apply (rotation_sequence_cannot_generate [rot_x pi] 1 2 1e-6 1e6 1 0
           [BNC_IN_A_RISING]).
  discriminate.
Defined.

(** X16: the counts of one [generate], whatever the trigger option: on a
    sequence of [n] pulses with the attribute [channel] it adds [n + 2]
    calls of [single_tone], [n + 2] of [push_update], [n + 1] of
    [wait_time], one [wait_trigger] unless [trigger_option] is 0, and no
    other call. *)
Theorem generate_call_counts (trigger_option : Z)
  (trigger : list TriggerEvent) (w : World) (c : Z) :
  pulses (self w) <> [] ->
  channel (self w) = Some c ->
  let n := List.length (pulses (self w)) in
  let k := if (trigger_option =? 0)%Z then 0%nat else 1%nat in
  exists ops : list Call,
    dds (snd (generate trigger_option trigger w)) = dds w ++ ops
    /\ count is_stage ops = (n + 2)%nat
    /\ count is_commit ops = (n + 2)%nat
    /\ count is_wait_time ops = (n + 1)%nat
    /\ count is_wait_trigger ops = k
    /\ List.length ops = (3 * n + 5 + k)%nat.
Proof.
  intros Hps Hc n k. subst n k.
  exists (emitted (self w) c trigger_option trigger).
  rewrite (generate_returns _ _ _ c Hps Hc). cbn [snd dds].
  destruct (emitted_counts (self w) c trigger_option trigger Hps)
    as (H1 & H2 & H3 & H4).
  repeat (split; [assumption || reflexivity |]).
  destruct (pulses (self w)) as [|p0 ps] eqn:E; [contradiction |].
  rewrite <- E. rewrite (emitted_shape (self w) c p0 ps E).
  rewrite !length_app, (length_flat_map_const _ 3) by reflexivity.
  rewrite length_seq. unfold prime_calls.
  destruct (trigger_option =? 0)%Z; cbn [List.length]; lia.
Qed.

Lemma generate_call_counts_witness :
  exists ops : list Call,
    dds (snd (generate 2 [BNC_IN_A_RISING]
                (fresh (set_channel 2 example_sequence))))
    = [] ++ ops
    /\ count is_stage ops = 4%nat
    /\ count is_commit ops = 4%nat
    /\ count is_wait_time ops = 3%nat
    /\ count is_wait_trigger ops = 1%nat
    /\ List.length ops = 12%nat.
Proof.
  apply (generate_call_counts 2 [BNC_IN_A_RISING]
           (fresh (set_channel 2 example_sequence)) 2).
  - discriminate.
  - reflexivity.
Defined.

(** ** The description of a sequence *)


